(** * adafruit_hue: the Philips Hue bridge client

    A shallow embedding of [adafruit_hue.py] (class [Bridge]) and the
    properties of its construction, discovery, registration and resource
    methods.

    The Python object is a record of optional attributes (an attribute that
    was never assigned reads as [AttributeError]); every method is a
    computation in a state-and-exception monad over the object and the
    chronological trace of its effects (HTTP requests, [close], [time.sleep],
    [print]).  The state survives a raised exception, as it does in Python. *)

From Stdlib Require Import String Ascii List ZArith Bool Lia DecimalString.
From Stdlib Require Import PrimFloat.
Import ListNotations.
Open Scope string_scope.

(** ** Python values *)

(** The dynamically typed values that reach the class: arguments, keyword
    arguments and decoded JSON. *)
#[local] Set Warnings "-register-all".
Inductive value : Type :=
| VNone
| VBool (b : bool)
| VInt (n : Z)
| VFloat (f : float)
| VStr (s : string)
| VList (l : list value)
| VDict (d : list (string * value)).

(** Exceptions carry their class name and message. *)
Record exn : Type := Exn { exn_class : string; exn_msg : string }.

Definition TypeError (msg : string) : exn := Exn "TypeError" msg.
Definition AssertionError (msg : string) : exn := Exn "AssertionError" msg.
Definition AttributeError (attr : string) : exn := Exn "AttributeError" attr.
Definition NameError (name : string) : exn := Exn "NameError" name.
Definition KeyError (key : string) : exn := Exn "KeyError" key.
Definition IndexError (msg : string) : exn := Exn "IndexError" msg.

Definition result (A : Type) : Type := (exn + A)%type.

(** [bool(v)] *)
Definition truthy (v : value) : bool :=
  match v with
  | VNone => false
  | VBool b => b
  | VInt n => negb (Z.eqb n 0)
  | VFloat f => negb (PrimFloat.eqb f PrimFloat.zero)
  | VStr s => negb (String.eqb s EmptyString)
  | VList l => match l with [] => false | _ => true end
  | VDict d => match d with [] => false | _ => true end
  end.

(** [v is None] *)
Definition is_None (v : value) : bool :=
  match v with VNone => true | _ => false end.

(** Lookup in a dict, the first binding of a key being the live one. *)
Fixpoint lookup (k : string) (d : list (string * value)) : option value :=
  match d with
  | [] => None
  | (k', v) :: d' => if String.eqb k k' then Some v else lookup k d'
  end.

(** [v[0]] *)
Definition py_index0 (v : value) : result value :=
  match v with
  | VList (x :: _) => inr x
  | VList [] => inl (IndexError "list index out of range")
  | VStr (String c _) => inr (VStr (String c EmptyString))
  | VStr EmptyString => inl (IndexError "string index out of range")
  | VDict _ => inl (KeyError "0")
  | _ => inl (TypeError "object is not subscriptable")
  end.

(** [v[k]] for a string key [k] *)
Definition py_getitem (v : value) (k : string) : result value :=
  match v with
  | VDict d => match lookup k d with
               | Some x => inr x
               | None => inl (KeyError k)
               end
  | VList _ | VStr _ => inl (TypeError "indices must be integers")
  | _ => inl (TypeError "object is not subscriptable")
  end.

(** [v.get(k)] *)
Definition py_get (v : value) (k : string) : result value :=
  match v with
  | VDict d => inr (match lookup k d with Some x => x | None => VNone end)
  | _ => inl (AttributeError "get")
  end.

(** [s + v] for a [str] on the left *)
Definition py_concat (s : string) (v : value) : result string :=
  match v with
  | VStr u => inr (s ++ u)
  | _ => inl (TypeError "can only concatenate str to str")
  end.

(** [needle in hay] on strings *)
Fixpoint contains (needle hay : string) : bool :=
  String.prefix needle hay ||
  match hay with
  | EmptyString => false
  | String _ hay' => contains needle hay'
  end.

(** ** The collaborators: transport, responses, effects *)

Inductive method : Type := GET | POST | PUT.

(** One call of the WiFi manager: [json] is [None] when the keyword is not
    passed at all. *)
Record request : Type :=
  Req { req_method : method; req_url : string; req_json : option value }.

Inductive event : Type :=
| Request (r : request)
| Close
| Sleep (secs : Z)
| Print (v : value).

(** What the transport hands back: [json()] yields a value or raises,
    [close()] returns or raises. *)
Record response : Type :=
  Resp { json : result value; close : option exn }.

(** The injected WiFi manager: [str(type(wifi_manager))], and its answer to a
    request, which may depend on everything that happened before. *)
Record wifi_manager : Type :=
  Wifi { type_str : string;
         respond : list event -> request -> result response }.

(** ** The object *)

Record Bridge : Type := mkBridge {
  _wifi : option wifi_manager;
  _bridge_url : option string;
  _username_url : option string;
  _bridge_ip : option value;
  _username : option value;
  _ip : option value;
  bridge_url : option string
}.

(** The object before [__init__] has assigned anything. *)
Definition new_object : Bridge :=
  mkBridge None None None None None None None.

Record state : Type := mkState { self : Bridge; trace : list event }.

Definition fresh : state := mkState new_object [].

(** ** The monad *)

Definition M (A : Type) : Type := state -> result A * state.

Definition ret {A} (a : A) : M A := fun st => (inr a, st).
Definition raise {A} (e : exn) : M A := fun st => (inl e, st).
Definition lift {A} (r : result A) : M A := fun st => (r, st).

Definition bind {A B} (m : M A) (k : A -> M B) : M B :=
  fun st =>
    match m st with
    | (inl e, st') => (inl e, st')
    | (inr a, st') => k a st'
    end.

(** [try: m except: h] with a bare [except] *)
Definition try_except {A} (m : M A) (h : exn -> M A) : M A :=
  fun st =>
    match m st with
    | (inl e, st') => h e st'
    | (inr a, st') => (inr a, st')
    end.

Declare Scope py_scope.
Delimit Scope py_scope with py.
Notation "x <- m ;; k" := (bind m (fun x => k))
  (at level 61, m at next level, right associativity) : py_scope.
Notation "m ;; k" := (bind m (fun _ => k))
  (at level 61, right associativity) : py_scope.
Open Scope py_scope.

Definition emit (e : event) : M unit :=
  fun st => (inr tt, mkState (self st) (trace st ++ [e])).

(** [self.attr] read: [AttributeError] when never assigned. *)
Definition getattr {A} (name : string) (field : Bridge -> option A) : M A :=
  fun st =>
    match field (self st) with
    | Some a => (inr a, st)
    | None => (inl (AttributeError name), st)
    end.

Definition modify (f : Bridge -> Bridge) : M unit :=
  fun st => (inr tt, mkState (f (self st)) (trace st)).

(** Attribute assignment, first as a function on the object. *)
Definition with_wifi (w : wifi_manager) (b : Bridge) : Bridge :=
  mkBridge (Some w) (_bridge_url b) (_username_url b)
           (_bridge_ip b) (_username b) (_ip b) (bridge_url b).
Definition with__bridge_url (u : string) (b : Bridge) : Bridge :=
  mkBridge (_wifi b) (Some u) (_username_url b)
           (_bridge_ip b) (_username b) (_ip b) (bridge_url b).
Definition with__username_url (u : string) (b : Bridge) : Bridge :=
  mkBridge (_wifi b) (_bridge_url b) (Some u)
           (_bridge_ip b) (_username b) (_ip b) (bridge_url b).
Definition with__bridge_ip (v : value) (b : Bridge) : Bridge :=
  mkBridge (_wifi b) (_bridge_url b) (_username_url b)
           (Some v) (_username b) (_ip b) (bridge_url b).
Definition with__username (v : value) (b : Bridge) : Bridge :=
  mkBridge (_wifi b) (_bridge_url b) (_username_url b)
           (_bridge_ip b) (Some v) (_ip b) (bridge_url b).
Definition with__ip (v : value) (b : Bridge) : Bridge :=
  mkBridge (_wifi b) (_bridge_url b) (_username_url b)
           (_bridge_ip b) (_username b) (Some v) (bridge_url b).
Definition with_bridge_url (u : string) (b : Bridge) : Bridge :=
  mkBridge (_wifi b) (_bridge_url b) (_username_url b)
           (_bridge_ip b) (_username b) (_ip b) (Some u).

Definition set_wifi (w : wifi_manager) : M unit := modify (with_wifi w).
Definition set__bridge_url (u : string) : M unit := modify (with__bridge_url u).
Definition set__username_url (u : string) : M unit := modify (with__username_url u).
Definition set__bridge_ip (v : value) : M unit := modify (with__bridge_ip v).
Definition set__username (v : value) : M unit := modify (with__username v).
Definition set__ip (v : value) : M unit := modify (with__ip v).
Definition set_bridge_url (u : string) : M unit := modify (with_bridge_url u).

(** A call of the transport: logged, then answered from the history. *)
Definition wifi_call (w : wifi_manager) (r : request) : M response :=
  fun st => (respond w (trace st) r, mkState (self st) (trace st ++ [Request r])).

(** [resp.json()] *)
Definition resp_json (resp : response) : M value := lift (json resp).

(** [resp.close()] *)
Definition resp_close (resp : response) : M unit :=
  emit Close ;;
  lift (match close resp with
        | None => inr tt
        | Some e => inl e
        end).

(** [time.sleep(secs)] *)
Definition sleep (secs : Z) : M unit := emit (Sleep secs).

(** [print(v)] *)
Definition print (v : value) : M unit := emit (Print v).

(** ** The module and its environment *)

(** The names bound at module level besides [time], [randint] and the class
    itself.  No builtin is called [lightGroup]. *)
Definition module_globals : list (string * value) :=
  [ ("__version__", VStr "0.0.0-auto.0");
    ("__repo__", VStr "https://github.com/adafruit/Adafruit_CircuitPython_Hue.git") ].

(** Reading a global name: [NameError] when it is bound nowhere. *)
Definition global (name : string) : M value :=
  match lookup name module_globals with
  | Some v => ret v
  | None => raise (NameError name)
  end.

Definition quote : string := String (ascii_of_nat 34) EmptyString.
Definition newline : string := String (ascii_of_nat 10) EmptyString.
Definition tab : string := String (ascii_of_nat 9) EmptyString.

Fixpoint spaces (n : nat) : string :=
  match n with
  | O => EmptyString
  | S n' => String (ascii_of_nat 32) (spaces n')
  end.

(** ** Observations on traces and answers *)

Definition is_request (e : event) : bool :=
  match e with Request _ => true | _ => false end.

Definition is_sleep (e : event) : bool :=
  match e with Sleep _ => true | _ => false end.

(** The network calls of a trace, in order. *)
Fixpoint network_calls (t : list event) : list request :=
  match t with
  | [] => []
  | Request r :: t' => r :: network_calls t'
  | _ :: t' => network_calls t'
  end.

Definition count_requests (t : list event) : nat := length (network_calls t).

Definition count_sleeps (t : list event) : nat := length (filter is_sleep t).

Definition is_close (e : event) : bool :=
  match e with Close => true | _ => false end.

Definition count_closes (t : list event) : nat := length (filter is_close t).

(** The events after the last network call of a trace. *)
Fixpoint after_last_request (t : list event) : list event :=
  match t with
  | [] => []
  | e :: t' =>
      if existsb is_request t' then after_last_request t'
      else if is_request e then t' else e :: t'
  end.

(** The events of [n] passes of the registration loop. *)
Definition attempts_trace (rq : request) (n : nat) : list event :=
  concat (repeat [Request rq; Sleep 1] n).

(** The transport answered (it did not raise). *)
Definition answered (r : result response) : bool :=
  match r with inr _ => true | inl _ => false end.

(** An answer to a pairing request that grants nothing: its JSON is
    subscriptable, the first element is a dict, and that dict has no truthy
    [success]; closing the response does not raise. *)
Definition pairing_refused (r : result response) : bool :=
  match r with
  | inr resp =>
      match json resp with
      | inr body =>
          match py_index0 body with
          | inr first =>
              match py_get first "success", close resp with
              | inr s, None => negb (truthy s)
              | _, _ => false
              end
          | inl _ => false
          end
      | inl _ => false
      end
  | inl _ => false
  end.

(** The [success.username] of an answer to a pairing request, when the first
    element of its JSON is a dict with a truthy [success] that has a
    [username]; closing the response does not raise. *)
Definition granted_username (r : result response) : option value :=
  match r with
  | inr resp =>
      match json resp with
      | inr body =>
          match py_index0 body with
          | inr first =>
              match py_get first "success", close resp with
              | inr s, None =>
                  if truthy s then
                    match py_getitem s "username" with
                    | inr u => Some u
                    | inl _ => None
                    end
                  else None
              | _, _ => None
              end
          | inl _ => None
          end
      | inl _ => None
      end
  | inl _ => None
  end.

(** [str(type(wifi_manager))] names one of the two supported managers. *)
Definition supported (w : wifi_manager) : bool :=
  contains "ESPSPI_WiFiManager" (type_str w) || contains "ESPAT_WiFiManager" (type_str w).

(** ** Concrete collaborators *)

Definition espspi_type : string :=
  "<class 'adafruit_esp32spi.adafruit_esp32spi_wifimanager.ESPSPI_WiFiManager'>".

Definition json_response (v : value) : response := Resp (inr v) None.

(** A bridge whose link button is never pressed. *)
Definition link_error : value :=
  VList [VDict [("error",
    VDict [("type", VInt 101); ("address", VStr EmptyString);
           ("description", VStr "link button not pressed")])]].

Definition unpressed_wifi : wifi_manager :=
  Wifi espspi_type (fun _ _ => inr (json_response link_error)).

(** A bridge whose link button is already pressed. *)
Definition link_success : value :=
  VList [VDict [("success", VDict [("username", VStr "abc123")])]].

Definition pressed_wifi : wifi_manager :=
  Wifi espspi_type (fun _ _ => inr (json_response link_success)).

(** A bridge whose link button is pressed in time for the third pass of the
    registration loop: the request before the loop and two passes are
    refused. *)
Definition third_pass_wifi : wifi_manager :=
  Wifi espspi_type
       (fun h _ => if Nat.ltb (count_requests h) 3
                   then inr (json_response link_error)
                   else inr (json_response link_success)).

(** The discovery service and the bridge behind one transport. *)
Definition discovery_answer : value :=
  VList [VDict [("id", VStr "001788fffe100491");
                ("internalipaddress", VStr "10.0.0.5")]].

Definition home_wifi : wifi_manager :=
  Wifi espspi_type
       (fun _ r => match req_method r with
                   | GET => inr (json_response discovery_answer)
                   | _ => inr (json_response link_error)
                   end).

(** Not a WiFi manager at all. *)
Definition socket_pool : wifi_manager :=
  Wifi "<class 'SocketPool'>" (fun _ _ => inl (Exn "OSError" "no network")).

(** An object on which discovery has run, as [__init__] leaves it before
    registration. *)
Definition discovered (w : wifi_manager) : state :=
  mkState (mkBridge (Some w) None None (Some (VStr "10.0.0.5")) None
                    (Some (VStr "10.0.0.5")) (Some "http://10.0.0.5/api")) [].

(** A bridge that answers every request with one light. *)
Definition lamp_state : value :=
  VDict [("state", VDict [("on", VBool true); ("bri", VInt 200)]);
         ("name", VStr "Desk")].

Definition lamp_wifi : wifi_manager :=
  Wifi espspi_type (fun _ _ => inr (json_response lamp_state)).

(** A transport that is down. *)
Definition down_wifi : wifi_manager :=
  Wifi espspi_type (fun _ _ => inl (Exn "OSError" "no network")).

(** A client as [Bridge(w, "10.0.0.5", "abc123")] leaves it. *)
Definition paired (w : wifi_manager) : state :=
  mkState (mkBridge (Some w) (Some "http://10.0.0.5/api")
                    (Some "http://10.0.0.5/api/abc123") None None None None) [].

(** A bridge that grants the username in its first answer only. *)
Definition first_only_wifi : wifi_manager :=
  Wifi espspi_type
       (fun h _ => if Nat.eqb (count_requests h) 0
                   then inr (json_response link_success)
                   else inr (json_response link_error)).

(** A transport that fails from its third request on. *)
Definition dropping_wifi : wifi_manager :=
  Wifi espspi_type
       (fun h _ => if Nat.ltb (count_requests h) 2
                   then inr (json_response link_error)
                   else inl (Exn "OSError" "no network")).

(** The discovery service and a bridge whose link button is pressed in
    time for the third pass of the loop, behind one transport. *)
Definition provisioning_wifi : wifi_manager :=
  Wifi espspi_type
       (fun h r => match req_method r with
                   | GET => inr (json_response discovery_answer)
                   | _ => if Nat.ltb (count_requests h) 4
                          then inr (json_response link_error)
                          else inr (json_response link_success)
                   end).

Definition no_repr : value -> string := fun _ => "<object>".
Definition fixed_randint : Z -> Z -> list event -> Z := fun a _ _ => a.

Section Hue.

(** [str] of a float, a list or a dict is left to the interpreter. *)
Variable repr : value -> string.

(** [random.randint(a, b)]; the draw may depend on what happened before. *)
Variable randint : Z -> Z -> list event -> Z.

(** [str(v)], which is also what [format] puts for [{}] *)
Definition py_str (v : value) : string :=
  match v with
  | VNone => "None"
  | VBool true => "True"
  | VBool false => "False"
  | VInt n => NilZero.string_of_int (Z.to_int n)
  | VStr s => s
  | _ => repr v
  end.

Definition random_randint (a b : Z) : M Z :=
  fun st => (inr (randint a b (trace st)), st).

(** ** HTTP helpers *)

Definition _post (path : string) (data : value) : M response :=
  w <- getattr "_wifi" _wifi ;;
  wifi_call w (Req POST path (Some data)).

Definition _put (path : string) (data : value) : M response :=
  w <- getattr "_wifi" _wifi ;;
  wifi_call w (Req PUT path (Some data)).

(** [data] defaults to [None] and is passed on as [json=None]. *)
Definition _get (path : string) (data : value) : M response :=
  w <- getattr "_wifi" _wifi ;;
  wifi_call w (Req GET path (Some data)).

(** ** Discovery and registration *)

Definition discovery_url : string := "https://discovery.meethue.com".

Definition discovery_message : string :=
  "Ensure the Philips Bridge and CircuitPython device are both on the same WiFi network.".

(** The one error [discover_bridge] raises. *)
Definition DiscoveryError : exn := TypeError discovery_message.

Definition discover_bridge : M value :=
  bridge_ip <-
    try_except
      (w <- getattr "_wifi" _wifi ;;
       resp <- wifi_call w (Req GET discovery_url None) ;;
       json_data <- resp_json resp ;;
       first <- lift (py_index0 json_data) ;;
       bridge_ip <- lift (py_getitem first "internalipaddress") ;;
       resp_close resp ;;
       ret bridge_ip)
      (fun _ => raise DiscoveryError) ;;
  set__ip bridge_ip ;;
  ip <- getattr "_ip" _ip ;;
  set_bridge_url ("http://" ++ py_str ip ++ "/api") ;;
  getattr "_ip" _ip.

(** One pass of the [while] body: a pairing request, the look at the first
    element of the answer, the decrement (implicit in the fuel) and the
    sleep.  Yields the new [username] and [resp]. *)
Definition register_attempt (data : value) (username : value)
  : M (value * response) :=
  w <- getattr "_wifi" _wifi ;;
  url <- getattr "_bridge_url" _bridge_url ;;
  resp <- wifi_call w (Req POST url (Some data)) ;;
  body <- resp_json resp ;;
  json <- lift (py_index0 body) ;;
  success <- lift (py_get json "success") ;;
  username' <-
    (if truthy success then
       s <- lift (py_getitem json "success") ;;
       u <- lift (py_getitem s "username") ;;
       let username := py_str u in
       b <- getattr "_bridge_url" _bridge_url ;;
       set__username_url ((b ++ "/") ++ username) ;;
       ret (VStr username)
     else ret username) ;;
  sleep 1 ;;
  ret (username', resp).

(** [while username == None and connection_attempts > 0], the counter being
    the structural argument. *)
Fixpoint register_loop (data : value) (connection_attempts : nat)
    (username : value) (resp : response) : M (value * response) :=
  match connection_attempts with
  | O => ret (username, resp)
  | S n =>
      if is_None username then
        r <- register_attempt data username ;;
        register_loop data n (fst r) (snd r)
      else ret (username, resp)
  end.

(** The body of the pairing request. *)
Definition devicetype_data (r : Z) : value :=
  VDict [("devicetype", VStr ("CircuitPython#pyportal" ++ py_str (VInt r)))].

Definition register_username : M value :=
  ip <- getattr "_bridge_ip" _bridge_ip ;;
  set__bridge_url ("http://" ++ py_str ip ++ "/api") ;;
  r <- random_randint 0 100 ;;
  let data := devicetype_data r in
  w <- getattr "_wifi" _wifi ;;
  url <- getattr "_bridge_url" _bridge_url ;;
  resp <- wifi_call w (Req POST url (Some data)) ;;
  out <- register_loop data 30 VNone resp ;;
  resp_close (snd out) ;;
  ret (fst out).

(** ** Construction *)

Definition wifi_message : string := "This library requires a WiFiManager object.".

Definition secrets_message (bridge_ip username : value) : string :=
  "ADD THESE VALUES TO SECRETS.PY: " ++ spaces 33 ++
  newline ++ tab ++ quote ++ "bridge_ip" ++ quote ++ ":" ++ quote ++
  py_str bridge_ip ++ quote ++ ", " ++ spaces 33 ++
  newline ++ tab ++ quote ++ "username" ++ quote ++ ":" ++ quote ++
  py_str username ++ quote.

Definition __init__ (wifi_manager : wifi_manager) (bridge_ip username : value)
  : M unit :=
  let wifi_type := type_str wifi_manager in
  (if contains "ESPSPI_WiFiManager" wifi_type || contains "ESPAT_WiFiManager" wifi_type
   then set_wifi wifi_manager
   else raise (TypeError wifi_message)) ;;
  if truthy bridge_ip && negb (is_None username) then
    set__bridge_url ("http://" ++ py_str bridge_ip ++ "/api") ;;
    b <- getattr "_bridge_url" _bridge_url ;;
    u <- lift (py_concat (b ++ "/") username) ;;
    set__username_url u
  else
    ip <- discover_bridge ;;
    set__bridge_ip ip ;;
    name <- register_username ;;
    set__username name ;;
    ip' <- getattr "_bridge_ip" _bridge_ip ;;
    name' <- getattr "_username" _username ;;
    raise (AssertionError (secrets_message ip' name')).

(** ** Lights *)

Definition show_light_info (light_id : value) : M value :=
  url <- getattr "_username_url" _username_url ;;
  resp <- _get (url ++ "/lights/" ++ py_str light_id) VNone ;;
  resp_json' <- resp_json resp ;;
  resp_close resp ;;
  ret resp_json'.

Definition set_light (light_id : value) (kwargs : list (string * value)) : M value :=
  url <- getattr "_username_url" _username_url ;;
  resp <- _put (url ++ "/lights/" ++ py_str light_id ++ "/state") (VDict kwargs) ;;
  resp_json' <- resp_json resp ;;
  resp_close resp ;;
  ret resp_json'.

Definition get_light (light_id : value) : M value :=
  url <- getattr "_username_url" _username_url ;;
  resp <- _get (url ++ "/lights/" ++ py_str light_id) VNone ;;
  resp_json' <- resp_json resp ;;
  resp_close resp ;;
  ret resp_json'.

Definition get_lights : M value :=
  url <- getattr "_username_url" _username_url ;;
  resp <- _get (url ++ "/lights") VNone ;;
  resp_json' <- resp_json resp ;;
  resp_close resp ;;
  ret resp_json'.

(** ** Groups *)

(** The dict display is evaluated first, and its third value is the global
    name [lightGroup]. *)
Definition create_group (lights group_id : value) : M value :=
  lightGroup <- global "lightGroup" ;;
  let data := VDict [("lights", lights); ("name", group_id); ("type", lightGroup)] in
  url <- getattr "_username_url" _username_url ;;
  resp <- _post (url ++ "/groups") data ;;
  resp_json' <- resp_json resp ;;
  resp_close resp ;;
  ret resp_json'.

Definition set_group (group_id : value) (kwargs : list (string * value)) : M value :=
  print (VDict kwargs) ;;
  url <- getattr "_username_url" _username_url ;;
  resp <- _put (url ++ "/groups/" ++ py_str group_id ++ "/action") (VDict kwargs) ;;
  resp_json' <- resp_json resp ;;
  resp_close resp ;;
  ret resp_json'.

Definition get_groups : M value :=
  url <- getattr "_username_url" _username_url ;;
  resp <- _get (url ++ "/groups") VNone ;;
  resp_json' <- resp_json resp ;;
  resp_close resp ;;
  ret resp_json'.

(** ** Scenes *)

(** The result of [set_group] is dropped: the method returns [None]. *)
Definition set_scene (group_id scene_id : value) : M value :=
  set_group group_id [("scene", scene_id)] ;;
  ret VNone.

Definition get_scenes : M value :=
  url <- getattr "_username_url" _username_url ;;
  resp <- _get (url ++ "/scenes") VNone ;;
  resp_json' <- resp_json resp ;;
  resp_close resp ;;
  ret resp_json'.

(** ** The resource operations as one type *)

Inductive resource_op : Type :=
| ShowLightInfo (light_id : value)
| SetLight (light_id : value) (kwargs : list (string * value))
| GetLight (light_id : value)
| GetLights
| CreateGroup (lights group_id : value)
| SetGroup (group_id : value) (kwargs : list (string * value))
| GetGroups
| SetScene (group_id scene_id : value)
| GetScenes.

Definition run_op (op : resource_op) : M value :=
  match op with
  | ShowLightInfo i => show_light_info i
  | SetLight i kw => set_light i kw
  | GetLight i => get_light i
  | GetLights => get_lights
  | CreateGroup l g => create_group l g
  | SetGroup g kw => set_group g kw
  | GetGroups => get_groups
  | SetScene g s => set_scene g s
  | GetScenes => get_scenes
  end.

Definition is_create_group (op : resource_op) : bool :=
  match op with CreateGroup _ _ => true | _ => false end.

(** ** Reachable states *)

(** Any method of the object, with its arguments. *)
Inductive call : Type :=
| CallDiscover
| CallRegister
| CallOp (op : resource_op)
| CallPost (path : string) (data : value)
| CallPut (path : string) (data : value)
| CallGet (path : string) (data : value).

(** The state a call leaves behind, whether it returns or raises. *)
Definition exec (c : call) (st : state) : state :=
  match c with
  | CallDiscover => snd (discover_bridge st)
  | CallRegister => snd (register_username st)
  | CallOp op => snd (run_op op st)
  | CallPost p d => snd (_post p d st)
  | CallPut p d => snd (_put p d st)
  | CallGet p d => snd (_get p d st)
  end.

(** The states of an object: what [__init__] leaves of a new object, whether
    it returns or raises, and what any sequence of method calls makes of it. *)
Inductive reachable : state -> Prop :=
| reach_init (w : wifi_manager) (bridge_ip username : value) (t : list event) :
    reachable (snd (__init__ w bridge_ip username (mkState new_object t)))
| reach_call (c : call) (st : state) :
    reachable st -> reachable (exec c st).

(** The base URL agrees with the discovered address, and the authenticated
    URL, when set, is the base URL, a slash and a username. *)
Definition url_invariant (b : Bridge) : Prop :=
  (forall ip base, _bridge_ip b = Some ip -> _bridge_url b = Some base ->
                   base = "http://" ++ py_str ip ++ "/api") /\
  (forall u, _username_url b = Some u ->
             exists base name, _bridge_url b = Some base /\ u = base ++ "/" ++ name).

(** The request each resource operation sends from an object whose
    authenticated URL is [url]; [create_group] sends none. *)
Definition op_request (url : string) (op : resource_op) : option request :=
  match op with
  | ShowLightInfo i | GetLight i =>
      Some (Req GET (url ++ "/lights/" ++ py_str i) (Some VNone))
  | SetLight i kw =>
      Some (Req PUT (url ++ "/lights/" ++ py_str i ++ "/state") (Some (VDict kw)))
  | GetLights => Some (Req GET (url ++ "/lights") (Some VNone))
  | CreateGroup _ _ => None
  | SetGroup g kw =>
      Some (Req PUT (url ++ "/groups/" ++ py_str g ++ "/action") (Some (VDict kw)))
  | GetGroups => Some (Req GET (url ++ "/groups") (Some VNone))
  | SetScene g sc =>
      Some (Req PUT (url ++ "/groups/" ++ py_str g ++ "/action")
                (Some (VDict [("scene", sc)])))
  | GetScenes => Some (Req GET (url ++ "/scenes") (Some VNone))
  end.

(** A computation that leaves the attribute [f] as it was, whether it
    returns or raises. *)
Definition keeps {A B} (f : Bridge -> B) (m : M A) : Prop :=
  forall st, f (self (snd (m st))) = f (self st).

(** The object after discovery of [address] and the assignment of
    [_bridge_ip], as [__init__] hands it to [register_username]. *)
Definition provisioned (w : wifi_manager) (address : value) : Bridge :=
  with__bridge_ip address
    (with_bridge_url ("http://" ++ py_str address ++ "/api")
       (with__ip address (with_wifi w new_object))).

(** A computation that raises from every state. *)
Definition always_raises {A} (m : M A) : Prop :=
  forall st, exists e, fst (m st) = inl e.

(** The states of a client that [__init__] returned, after any sequence of
    method calls. *)
Inductive constructed : state -> Prop :=
| constructed_init (w : wifi_manager) (bridge_ip username : value)
    (t : list event) :
    fst (__init__ w bridge_ip username (mkState new_object t)) = inr tt ->
    constructed (snd (__init__ w bridge_ip username (mkState new_object t)))
| constructed_call (c : call) (st : state) :
    constructed st -> constructed (exec c st).

(** A computation that keeps [url_invariant], whether it returns or raises. *)
Definition preserves {A} (m : M A) : Prop :=
  forall st, url_invariant (self st) -> url_invariant (self (snd (m st))).

(** ** Reasoning about runs *)

Lemma append_assoc (a b c : string) : (a ++ b) ++ c = a ++ b ++ c.
Proof.
  induction a as [|ch a IH]; simpl; [reflexivity | now rewrite IH].
Qed.

Lemma network_calls_app (t1 t2 : list event) :
  network_calls (t1 ++ t2) = (network_calls t1 ++ network_calls t2)%list.
Proof.
  induction t1 as [|e t1 IH]; simpl; [reflexivity|].
  destruct e; simpl; now rewrite IH.
Qed.

Lemma count_sleeps_app (t1 t2 : list event) :
  count_sleeps (t1 ++ t2) = count_sleeps t1 + count_sleeps t2.
Proof.
  unfold count_sleeps. now rewrite filter_app, length_app.
Qed.

Lemma count_requests_app (t1 t2 : list event) :
  count_requests (t1 ++ t2) = count_requests t1 + count_requests t2.
Proof.
  unfold count_requests. now rewrite network_calls_app, length_app.
Qed.

Ltac unfold_run :=
  unfold resp_json, resp_close, sleep, print, global, random_randint,
    set_wifi, set__bridge_url, set__username_url, set__bridge_ip,
    set__username, set__ip, set_bridge_url in *;
  unfold bind, ret, raise, lift, try_except, getattr, modify, emit,
    wifi_call in *.

(** Splits a run along the outcomes of the calls it makes. *)
Ltac split_run :=
  repeat (simpl in *;
          match goal with
          | |- context [match ?x with _ => _ end] =>
              lazymatch x with
              | context [match _ with _ => _ end] => fail
              | _ => destruct x eqn:?
              end
          end).

(** ** Resource operations *)

(** C3: [create_group] never gets as far as its POST.  Whatever the lights
    and the name, evaluating the request body reads the unbound global name
    [lightGroup]; the method raises [NameError], the object and the trace are
    as before and nothing is sent. *)
Theorem create_group_raises_NameError (lights group_id : value) (st : state) :
  create_group lights group_id st = (inl (NameError "lightGroup"), st).
Proof. reflexivity. Qed.

(** C9: [show_light_info] and [get_light] are one computation: from every
    state they give the same result and the same final state, and the only
    network call they make is a GET of [<authenticated URL>/lights/<id>]. *)
Theorem show_light_info_is_get_light (light_id : value) (st : state) :
  show_light_info light_id st = get_light light_id st /\
  network_calls (trace (snd (get_light light_id st))) =
    (network_calls (trace st) ++
     match _username_url (self st), _wifi (self st) with
     | Some url, Some _ =>
         [Req GET (url ++ "/lights/" ++ py_str light_id)%string (Some VNone)]
     | _, _ => []
     end)%list.
Proof.
  split; [reflexivity|].
  unfold get_light, _get. unfold_run.
  destruct st as [b t]; simpl.
  destruct (_username_url b) as [url|]; simpl;
    [|now rewrite app_nil_r].
  destruct (_wifi b) as [w|]; simpl; [|now rewrite app_nil_r].
  split_run; simpl;
    repeat rewrite <- app_assoc; repeat rewrite network_calls_app;
    simpl; reflexivity.
Qed.

(** C7: [set_scene(group_id, scene_id)] leaves the state that
    [set_group(group_id, scene=scene_id)] leaves, so it issues the same
    request: a PUT of [<authenticated URL>/groups/<id>/action] with the body
    [{"scene": scene_id}].  It fails when [set_group] fails; the value
    [set_group] returns is dropped. *)
Theorem set_scene_is_set_group (group_id scene_id : value) (st : state) :
  snd (set_scene group_id scene_id st) =
    snd (set_group group_id [("scene", scene_id)] st) /\
  fst (set_scene group_id scene_id st) =
    match fst (set_group group_id [("scene", scene_id)] st) with
    | inl e => inl e
    | inr _ => inr VNone
    end /\
  network_calls (trace (snd (set_scene group_id scene_id st))) =
    (network_calls (trace st) ++
     match _username_url (self st), _wifi (self st) with
     | Some url, Some _ =>
         [Req PUT (url ++ "/groups/" ++ py_str group_id ++ "/action")%string
              (Some (VDict [("scene", scene_id)]))]
     | _, _ => []
     end)%list.
Proof.
  assert (E : forall A B (m : M A) (k : A -> B) s,
             snd (bind m (fun a => ret (k a)) s) = snd (m s) /\
             fst (bind m (fun a => ret (k a)) s) =
               match fst (m s) with inl e => inl e | inr a => inr (k a) end).
  { intros A B m k s. unfold bind, ret. destruct (m s) as [[e|a] s']; auto. }
  unfold set_scene.
  destruct (E _ _ (set_group group_id [("scene", scene_id)]) (fun _ => VNone) st)
    as [E1 E2].
  split; [exact E1|]. split; [exact E2|].
  rewrite E1. clear E E1 E2.
  unfold set_group, _put. unfold_run.
  destruct st as [b t]; simpl.
  destruct (_username_url b) as [url|]; simpl;
    [|rewrite network_calls_app; reflexivity].
  destruct (_wifi b) as [w|]; simpl;
    [|rewrite network_calls_app; reflexivity].
  split_run; simpl;
    repeat rewrite <- app_assoc; repeat rewrite network_calls_app;
    simpl; reflexivity.
Qed.

(** C4 (amended): the class has no guard of its own and no
    [NotAuthenticatedError].  On an object whose authenticated URL was never
    set, every resource operation still fails before any network call: the
    object is unchanged, the trace has no new request, and for every
    operation but [create_group] the error is the [AttributeError] of the
    read of [_username_url]. *)
Theorem resource_op_without_username (op : resource_op) (st : state) :
  _username_url (self st) = None ->
  exists e,
    fst (run_op op st) = inl e /\
    self (snd (run_op op st)) = self st /\
    network_calls (trace (snd (run_op op st))) = network_calls (trace st) /\
    (is_create_group op = false -> e = AttributeError "_username_url").
Proof.
  intros H. destruct st as [b t]; simpl in H.
  destruct op; simpl;
    unfold set_scene;
    unfold show_light_info, set_light, get_light, get_lights, create_group,
      set_group, get_groups, get_scenes;
    unfold_run; simpl; rewrite ?H; simpl;
    eexists; (split; [reflexivity|]); (split; [reflexivity|]);
    (split; [rewrite ?network_calls_app, ?app_nil_r; reflexivity|]);
    intros; try reflexivity; discriminate.
Qed.

(** ** Construction *)

(** C10: a transport whose type name contains neither [ESPSPI_WiFiManager]
    nor [ESPAT_WiFiManager] makes [__init__] raise [TypeError] at once,
    whatever the address and the username: no attribute is stored and
    nothing is sent. *)
Theorem init_rejects_other_transports
    (w : wifi_manager) (bridge_ip username : value) (st : state) :
  contains "ESPSPI_WiFiManager" (type_str w) = false ->
  contains "ESPAT_WiFiManager" (type_str w) = false ->
  __init__ w bridge_ip username st = (inl (TypeError wifi_message), st).
Proof.
  intros H1 H2. unfold __init__. rewrite H1, H2. reflexivity.
Qed.

(** C6: with a supported transport, a non-empty address and a username,
    [__init__] returns without a single effect, the base URL is
    [http://<address>/api] and the authenticated URL is
    [http://<address>/api/<username>]. *)
Theorem init_with_credentials
    (w : wifi_manager) (address username : string) (t : list event) :
  supported w = true ->
  address <> EmptyString ->
  let out := __init__ w (VStr address) (VStr username) (mkState new_object t) in
  fst out = inr tt /\
  trace (snd out) = t /\
  _wifi (self (snd out)) = Some w /\
  _bridge_url (self (snd out)) = Some ("http://" ++ address ++ "/api") /\
  _username_url (self (snd out)) =
    Some ("http://" ++ address ++ "/api/" ++ username).
Proof.
  intros Hw Ha out. subst out. unfold supported in Hw.
  unfold __init__. rewrite Hw.
  assert (Ht : truthy (VStr address) = true).
  { simpl. destruct address; [congruence | reflexivity]. }
  rewrite Ht. cbn [andb negb is_None].
  unfold_run. unfold with_wifi, with__bridge_url, with__username_url.
  cbn [fst snd self trace _wifi _bridge_url _username_url py_concat py_str].
  repeat split.
  f_equal. rewrite !append_assoc. reflexivity.
Qed.

(** ** Discovery *)

(** The only JSON whose first element has an [internalipaddress] is a list
    that starts with a dict holding that key. *)
Lemma first_candidate_shape (body first address : value) :
  py_index0 body = inr first ->
  py_getitem first "internalipaddress" = inr address ->
  exists d rest,
    body = VList (VDict d :: rest) /\
    lookup "internalipaddress" d = Some address.
Proof.
  intros Hi Hk.
  destruct body as [| | | |s|l|]; try discriminate.
  - destruct s; inversion Hi; subst first. discriminate.
  - destruct l as [|x rest]; inversion Hi; subst x.
    destruct first; try discriminate. cbn in Hk.
    destruct (lookup "internalipaddress" d) eqn:Hl; inversion Hk; subst.
    now exists d, rest.
Qed.

(** C5: [discover_bridge] has one error, [DiscoveryError] (the [TypeError]
    with the fixed network message), and raises it whenever the request
    raises, [json()] raises or the candidate list is empty; whatever raised
    inside the [try] is replaced by it, and the object is then as before.
    The method returns only when the JSON is a list whose first candidate is
    a dict with an [internalipaddress] and the response closes; it then
    stores that address in [_ip], sets [bridge_url] to
    [http://<address>/api], returns the address, and has made the one GET to
    the discovery service. *)
Theorem discover_bridge_spec (st : state) :
  (forall e, fst (discover_bridge st) = inl e ->
             e = DiscoveryError /\ self (snd (discover_bridge st)) = self st) /\
  (forall w, _wifi (self st) = Some w ->
     let answer := respond w (trace st) (Req GET discovery_url None) in
     (forall e, answer = inl e ->
                fst (discover_bridge st) = inl DiscoveryError) /\
     (forall resp e, answer = inr resp -> json resp = inl e ->
                fst (discover_bridge st) = inl DiscoveryError) /\
     (forall resp, answer = inr resp -> json resp = inr (VList []) ->
                fst (discover_bridge st) = inl DiscoveryError) /\
     (forall address, fst (discover_bridge st) = inr address ->
        exists resp d rest,
          answer = inr resp /\
          json resp = inr (VList (VDict d :: rest)) /\
          lookup "internalipaddress" d = Some address /\
          close resp = None) /\
     (forall resp d rest address,
         answer = inr resp ->
         json resp = inr (VList (VDict d :: rest)) ->
         lookup "internalipaddress" d = Some address ->
         close resp = None ->
         fst (discover_bridge st) = inr address /\
         _ip (self (snd (discover_bridge st))) = Some address /\
         bridge_url (self (snd (discover_bridge st))) =
           Some ("http://" ++ py_str address ++ "/api") /\
         network_calls (trace (snd (discover_bridge st))) =
           (network_calls (trace st) ++ [Req GET discovery_url None])%list)).
Proof.
  destruct st as [b t]. split.
  - intros e. unfold discover_bridge. unfold_run. simpl.
    split_run; intros H; inversion H; subst; split; reflexivity.
  - intros w Hw answer. simpl in Hw. subst answer. simpl.
    unfold discover_bridge. unfold_run. simpl. rewrite Hw.
    cbn [self trace]. repeat split.
    + intros e He. rewrite He. reflexivity.
    + intros resp e He Hj. rewrite He. simpl. rewrite Hj. reflexivity.
    + intros resp He Hj. rewrite He. simpl. rewrite Hj. reflexivity.
    + destruct (respond w t (Req GET discovery_url None)) as [|resp];
        [discriminate|]. simpl.
      destruct (json resp) as [|body] eqn:Hj; [discriminate|]. simpl.
      destruct (py_index0 body) as [|first] eqn:Hi; [discriminate|]. simpl.
      destruct (py_getitem first "internalipaddress") as [|a] eqn:Hk;
        [discriminate|]. simpl.
      destruct (close resp) eqn:Hc; [discriminate|]. simpl.
      intros address E. inversion E; subst a.
      destruct (first_candidate_shape _ _ _ Hi Hk) as [d [rest [Hb Hl]]].
      subst body. exists resp, d, rest. repeat split; assumption.
    + rewrite H. simpl. rewrite H0. simpl. rewrite H1. simpl. rewrite H2.
      reflexivity.
    + rewrite H. simpl. rewrite H0. simpl. rewrite H1. simpl. rewrite H2.
      reflexivity.
    + rewrite H. simpl. rewrite H0. simpl. rewrite H1. simpl. rewrite H2.
      reflexivity.
    + rewrite H. simpl. rewrite H0. simpl. rewrite H1. simpl. rewrite H2.
      simpl. rewrite <- app_assoc, network_calls_app. reflexivity.
Qed.

(** [discover_bridge] stores its URL in [bridge_url]; the attributes the
    requests are built from stay as they were. *)
Lemma discover_bridge_keeps_urls (st : state) :
  _bridge_url (self (snd (discover_bridge st))) = _bridge_url (self st) /\
  _username_url (self (snd (discover_bridge st))) = _username_url (self st) /\
  _bridge_ip (self (snd (discover_bridge st))) = _bridge_ip (self st) /\
  _wifi (self (snd (discover_bridge st))) = _wifi (self st).
Proof.
  destruct st as [b t]. unfold discover_bridge. unfold_run. simpl.
  split_run; repeat split; simpl; congruence.
Qed.

(** ** Registration *)

Lemma attempts_trace_S (rq : request) (n : nat) :
  attempts_trace rq (S n) = Request rq :: Sleep 1 :: attempts_trace rq n.
Proof. reflexivity. Qed.

Lemma attempts_trace_snoc (rq : request) (n : nat) :
  attempts_trace rq (S n) = (attempts_trace rq n ++ [Request rq; Sleep 1])%list.
Proof.
  induction n as [|n IH]; [reflexivity|].
  rewrite attempts_trace_S, IH at 1. rewrite attempts_trace_S. reflexivity.
Qed.

Lemma count_requests_attempts (rq : request) (n : nat) :
  count_requests (attempts_trace rq n) = n.
Proof.
  induction n as [|n IH]; [reflexivity|].
  rewrite attempts_trace_S. unfold count_requests in *. simpl. now rewrite IH.
Qed.

Lemma count_sleeps_attempts (rq : request) (n : nat) :
  count_sleeps (attempts_trace rq n) = n.
Proof.
  induction n as [|n IH]; [reflexivity|].
  rewrite attempts_trace_S. unfold count_sleeps in *. simpl. now rewrite IH.
Qed.

Lemma after_last_request_tail (t : list event) (r : request) (tl : list event) :
  existsb is_request tl = false ->
  after_last_request (t ++ Request r :: tl) = tl.
Proof.
  intros H. induction t as [|e t IH]; simpl.
  - now rewrite H.
  - rewrite existsb_app. simpl. rewrite orb_true_r. exact IH.
Qed.

(** A truthy [get] is the item itself. *)
Lemma py_get_truthy (v s : value) (k : string) :
  py_get v k = inr s -> truthy s = true -> py_getitem v k = inr s.
Proof.
  destruct v; simpl; try discriminate.
  destruct (lookup k d); intros H Ht; inversion H; subst;
    [reflexivity | discriminate].
Qed.

Section Loop.

Variables (w : wifi_manager) (url : string) (data : value).

Let rq : request := Req POST url (Some data).

(** A refused pass changes nothing but the trace. *)
Lemma attempt_refused (username : value) (st : state) :
  _wifi (self st) = Some w ->
  _bridge_url (self st) = Some url ->
  pairing_refused (respond w (trace st) rq) = true ->
  exists resp,
    register_attempt data username st =
      (inr (username, resp),
       mkState (self st) (trace st ++ [Request rq; Sleep 1])) /\
    close resp = None.
Proof.
  intros Hw Hu Hr. destruct st as [b t]; simpl in *.
  unfold register_attempt. unfold_run. simpl. rewrite Hw. simpl. rewrite Hu. simpl.
  unfold pairing_refused in Hr. fold rq.
  destruct (respond w t rq) as [|resp]; [discriminate|].
  destruct (json resp) as [|body]; [discriminate|]. simpl.
  destruct (py_index0 body) as [|first]; [discriminate|]. simpl.
  destruct (py_get first "success") as [|s]; [discriminate|]. simpl.
  destruct (close resp) eqn:Hc; [discriminate|].
  apply negb_true_iff in Hr. rewrite Hr. simpl.
  exists resp. rewrite <- app_assoc. split; [reflexivity | exact Hc].
Qed.

(** A granted pass sets the authenticated URL, and still sleeps. *)
Lemma attempt_granted (username u : value) (st : state) :
  _wifi (self st) = Some w ->
  _bridge_url (self st) = Some url ->
  granted_username (respond w (trace st) rq) = Some u ->
  exists resp,
    register_attempt data username st =
      (inr (VStr (py_str u), resp),
       mkState (with__username_url ((url ++ "/") ++ py_str u) (self st))
               (trace st ++ [Request rq; Sleep 1])) /\
    close resp = None.
Proof.
  intros Hw Hu Hr. destruct st as [b t]; simpl in *.
  unfold register_attempt. unfold_run. simpl. rewrite Hw. simpl. rewrite Hu. simpl.
  unfold granted_username in Hr. fold rq.
  destruct (respond w t rq) as [|resp]; [discriminate|].
  destruct (json resp) as [|body]; [discriminate|]. simpl.
  destruct (py_index0 body) as [|first]; [discriminate|]. simpl.
  destruct (py_get first "success") as [|s] eqn:Hg; [discriminate|]. simpl.
  destruct (close resp) eqn:Hc; [discriminate|].
  destruct (truthy s) eqn:Ht; [|discriminate].
  rewrite (py_get_truthy _ _ _ Hg Ht). simpl.
  destruct (py_getitem s "username") as [|u']; [discriminate|].
  inversion Hr; subst u'. simpl. rewrite Hu. simpl.
  exists resp. rewrite <- app_assoc. split; [reflexivity | exact Hc].
Qed.

(** With every answer a refusal the loop runs its whole budget. *)
Lemma loop_refused (n : nat) :
  forall (st : state) (resp : response),
    _wifi (self st) = Some w ->
    _bridge_url (self st) = Some url ->
    (forall h, pairing_refused (respond w h rq) = true) ->
    close resp = None ->
    exists resp',
      register_loop data n VNone resp st =
        (inr (VNone, resp'),
         mkState (self st) (trace st ++ attempts_trace rq n)) /\
      close resp' = None.
Proof.
  induction n as [|n IH]; intros st resp Hw Hu Hr Hc.
  - exists resp. simpl. unfold ret, attempts_trace. simpl.
    rewrite app_nil_r. destruct st; split; [reflexivity | exact Hc].
  - destruct (attempt_refused VNone st Hw Hu (Hr _)) as [resp1 [E1 Hc1]].
    cbn [register_loop is_None]. unfold bind at 1. rewrite E1.
    cbn [fst snd].
    destruct (IH (mkState (self st) (trace st ++ [Request rq; Sleep 1])) resp1
                 Hw Hu Hr Hc1) as [resp' [E' Hc']].
    exists resp'. rewrite E'. cbn [self trace].
    rewrite <- app_assoc. split; [reflexivity | exact Hc'].
Qed.

(** With [k] refusals and then a grant, the loop makes [k + 1] passes. *)
Lemma loop_granted (u : value) (k : nat) :
  forall (n : nat) (st : state) (resp : response),
    _wifi (self st) = Some w ->
    _bridge_url (self st) = Some url ->
    k < n ->
    (forall h, count_requests (trace st) <= count_requests h <
               count_requests (trace st) + k ->
               pairing_refused (respond w h rq) = true) ->
    (forall h, count_requests h = count_requests (trace st) + k ->
               granted_username (respond w h rq) = Some u) ->
    exists resp',
      register_loop data n VNone resp st =
        (inr (VStr (py_str u), resp'),
         mkState (with__username_url ((url ++ "/") ++ py_str u) (self st))
                 (trace st ++ attempts_trace rq (S k))) /\
      close resp' = None.
Proof.
  induction k as [|k IH]; intros n st resp Hw Hu Hn Hr Hg;
    (destruct n as [|n]; [lia|]).
  - assert (G : granted_username (respond w (trace st) rq) = Some u)
      by (apply Hg; lia).
    destruct (attempt_granted VNone u st Hw Hu G) as [resp1 [E1 Hc1]].
    cbn [register_loop is_None]. unfold bind at 1. rewrite E1.
    cbn [fst snd]. exists resp1. split; [|exact Hc1].
    destruct n; reflexivity.
  - assert (R : pairing_refused (respond w (trace st) rq) = true)
      by (apply Hr; lia).
    destruct (attempt_refused VNone st Hw Hu R) as [resp1 [E1 Hc1]].
    cbn [register_loop is_None]. unfold bind at 1. rewrite E1.
    cbn [fst snd].
    set (st1 := mkState (self st) (trace st ++ [Request rq; Sleep 1])).
    assert (C : count_requests (trace st1) = S (count_requests (trace st))).
    { unfold st1. cbn [trace]. rewrite count_requests_app.
      unfold count_requests at 2. simpl. lia. }
    destruct (IH n st1 resp1 Hw Hu) as [resp' [E' Hc']].
    + lia.
    + intros h Hh. apply Hr. lia.
    + intros h Hh. apply Hg. lia.
    + exists resp'. rewrite E'. unfold st1. cbn [self trace].
      rewrite <- app_assoc. split; [reflexivity | exact Hc'].
Qed.

End Loop.

(** C1 (amended): when every answer to a pairing request is a refusal,
    [register_username] sends 31 pairing requests, the first before the loop
    with its answer never looked at and then one in each of the 30 passes of
    the loop, sleeps one second at the end of each of the 30 passes, closes
    the last response and returns [None] without raising.  The authenticated
    URL is left as it was. *)
Theorem register_username_gives_up (st : state) (w : wifi_manager) (ip : value) :
  _wifi (self st) = Some w ->
  _bridge_ip (self st) = Some ip ->
  (forall h r, pairing_refused (respond w h r) = true) ->
  let out := register_username st in
  let rq := Req POST ("http://" ++ py_str ip ++ "/api")
                (Some (devicetype_data (randint 0 100 (trace st)))) in
  fst out = inr VNone /\
  trace (snd out) =
    (trace st ++ Request rq :: attempts_trace rq 30 ++ [Close])%list /\
  count_requests (trace (snd out)) = count_requests (trace st) + 31 /\
  count_sleeps (trace (snd out)) = count_sleeps (trace st) + 30 /\
  _username_url (self (snd out)) = _username_url (self st).
Proof.
  intros Hw Hip Hr out rq.
  set (url := "http://" ++ py_str ip ++ "/api") in *.
  set (data := devicetype_data (randint 0 100 (trace st))) in *.
  assert (E : out =
              (inr VNone,
               mkState (with__bridge_url url (self st))
                       (trace st ++ Request rq :: attempts_trace rq 30 ++ [Close]))).
  { subst out. destruct st as [b t]. cbn [self trace] in *.
    unfold register_username.
    unfold getattr at 1, bind at 1. cbn [self]. rewrite Hip.
    unfold set__bridge_url, modify, bind at 1. cbn [self trace].
    unfold random_randint, bind at 1. cbn [self trace].
    unfold getattr at 1, bind at 1. cbn [self with__bridge_url _wifi].
    rewrite Hw.
    unfold getattr at 1, bind at 1. cbn [self with__bridge_url _bridge_url].
    unfold wifi_call, bind at 1. cbn [self trace].
    fold url. fold data. fold rq.
    pose proof (Hr t rq) as H0. unfold pairing_refused in H0.
    destruct (respond w t rq) as [|resp0] eqn:E0; [discriminate|].
    destruct (json resp0); [discriminate|].
    destruct (py_index0 v); [discriminate|].
    destruct (py_get v0 "success"); [discriminate|].
    destruct (close resp0) eqn:Hc0; [discriminate|].
    set (st1 := mkState (with__bridge_url url b) (t ++ [Request rq])).
    destruct (loop_refused w url data 30 st1 resp0 Hw eq_refl
                (fun h => Hr h _) Hc0) as [resp' [E' Hc']].
    fold rq in E'.
    unfold bind at 1. fold (with__bridge_url url b). fold st1. rewrite E'.
    cbn [fst snd]. unfold resp_close, emit, lift, bind, ret. rewrite Hc'.
    unfold st1. cbn [self trace]. rewrite <- !app_assoc. reflexivity. }
  rewrite E. cbn [fst snd self trace].
  split; [reflexivity|]. split; [reflexivity|].
  split; [|split; [|reflexivity]].
  - rewrite count_requests_app.
    change (Request rq :: attempts_trace rq 30 ++ [Close])%list
      with ([Request rq] ++ attempts_trace rq 30 ++ [Close])%list.
    rewrite !count_requests_app, count_requests_attempts. reflexivity.
  - rewrite count_sleeps_app.
    change (Request rq :: attempts_trace rq 30 ++ [Close])%list
      with ([Request rq] ++ attempts_trace rq 30 ++ [Close])%list.
    rewrite !count_sleeps_app, count_sleeps_attempts. reflexivity.
Qed.

(** C2 (amended): let the answer to the pairing request sent before the loop
    be any answer at all, the answers in the first [N - 1] passes of the loop
    refusals, and the answer in pass [N] (with [N] from 1 to 30) a grant of
    [success.username].  Then [register_username] returns [str] of that
    username, the authenticated URL is the base URL, a slash and that string,
    and the trace is the request before the loop, [N] passes of a request
    and a one-second sleep, and the close: after the granted request comes no
    further request, and exactly the sleep that ends pass [N]. *)
Theorem register_username_granted
    (st : state) (w : wifi_manager) (ip u : value) (N : nat) :
  _wifi (self st) = Some w ->
  _bridge_ip (self st) = Some ip ->
  1 <= N <= 30 ->
  (forall h r, count_requests h = count_requests (trace st) ->
               answered (respond w h r) = true) ->
  (forall h r, count_requests (trace st) < count_requests h <
               count_requests (trace st) + N ->
               pairing_refused (respond w h r) = true) ->
  (forall h r, count_requests h = count_requests (trace st) + N ->
               granted_username (respond w h r) = Some u) ->
  let out := register_username st in
  let url := "http://" ++ py_str ip ++ "/api" in
  let rq := Req POST url (Some (devicetype_data (randint 0 100 (trace st)))) in
  fst out = inr (VStr (py_str u)) /\
  _bridge_url (self (snd out)) = Some url /\
  _username_url (self (snd out)) = Some (url ++ "/" ++ py_str u) /\
  trace (snd out) =
    (trace st ++ Request rq :: attempts_trace rq N ++ [Close])%list /\
  after_last_request (trace (snd out)) = [Sleep 1; Close].
Proof.
  intros Hw Hip HN Ha Hr Hg out url rq.
  set (data := devicetype_data (randint 0 100 (trace st))) in *.
  assert (E : out =
              (inr (VStr (py_str u)),
               mkState (with__username_url ((url ++ "/") ++ py_str u)
                          (with__bridge_url url (self st)))
                       (trace st ++ Request rq :: attempts_trace rq N ++ [Close]))).
  { subst out. destruct st as [b t]. cbn [self trace] in *.
    unfold register_username.
    unfold getattr at 1, bind at 1. cbn [self]. rewrite Hip.
    unfold set__bridge_url, modify, bind at 1. cbn [self trace].
    unfold random_randint, bind at 1. cbn [self trace].
    unfold getattr at 1, bind at 1. cbn [self with__bridge_url _wifi].
    rewrite Hw.
    unfold getattr at 1, bind at 1. cbn [self with__bridge_url _bridge_url].
    unfold wifi_call, bind at 1. cbn [self trace].
    fold url. fold data. fold rq.
    pose proof (Ha t rq eq_refl) as H0. unfold answered in H0.
    destruct (respond w t rq) as [|resp0] eqn:E0; [discriminate|].
    set (st1 := mkState (with__bridge_url url b) (t ++ [Request rq])).
    assert (C : count_requests (trace st1) = S (count_requests t)).
    { unfold st1. cbn [trace]. rewrite count_requests_app.
      unfold count_requests at 2. simpl. lia. }
    destruct N as [|k]; [lia|].
    destruct (loop_granted w url data u k 30 st1 resp0 Hw eq_refl)
      as [resp' [E' Hc']].
    - lia.
    - intros h Hh. apply Hr. lia.
    - intros h Hh. apply Hg. lia.
    - fold rq in E'.
      unfold bind at 1. fold (with__bridge_url url b). fold st1. rewrite E'.
      cbn [fst snd]. unfold resp_close, emit, lift, bind, ret. rewrite Hc'.
      unfold st1. cbn [self trace]. rewrite <- !app_assoc. reflexivity. }
  rewrite E. cbn [fst snd self trace with__username_url with__bridge_url
                  _bridge_url _username_url].
  split; [reflexivity|]. split; [reflexivity|].
  split; [now rewrite append_assoc|]. split; [reflexivity|].
  destruct N as [|k]; [lia|].
  rewrite attempts_trace_snoc, <- app_assoc. cbn [app].
  replace (trace st ++ Request rq :: attempts_trace rq k ++
             Request rq :: [Sleep 1; Close])%list
    with ((trace st ++ Request rq :: attempts_trace rq k) ++
            Request rq :: [Sleep 1; Close])%list
    by (rewrite <- app_assoc; reflexivity).
  apply after_last_request_tail. reflexivity.
Qed.

(** ** The invariant of the URLs *)

Lemma url_invariant_ext (b b' : Bridge) :
  _bridge_ip b' = _bridge_ip b ->
  _bridge_url b' = _bridge_url b ->
  _username_url b' = _username_url b ->
  url_invariant b -> url_invariant b'.
Proof.
  unfold url_invariant. intros -> -> ->. exact (fun H => H).
Qed.

Lemma preserves_self {A} (m : M A) :
  (forall st, self (snd (m st)) = self st) -> preserves m.
Proof.
  intros H st I. now rewrite H.
Qed.

Lemma preserves_bind {A B} (m : M A) (k : A -> M B) :
  preserves m -> (forall a, preserves (k a)) -> preserves (bind m k).
Proof.
  intros Hm Hk st I. unfold bind. specialize (Hm st I).
  destruct (m st) as [[e|a] st']; simpl in *; [exact Hm|].
  apply Hk, Hm.
Qed.

Lemma preserves_ret {A} (a : A) : preserves (ret a).
Proof. now apply preserves_self. Qed.

Lemma preserves_raise {A} (e : exn) : preserves (@raise A e).
Proof. now apply preserves_self. Qed.

Lemma preserves_lift {A} (r : result A) : preserves (lift r).
Proof. now apply preserves_self. Qed.

Lemma preserves_getattr {A} (name : string) (field : Bridge -> option A) :
  preserves (getattr name field).
Proof.
  apply preserves_self. intros st. unfold getattr.
  now destruct (field (self st)).
Qed.

Lemma preserves_emit (e : event) : preserves (emit e).
Proof. now apply preserves_self. Qed.

Lemma preserves_wifi_call (w : wifi_manager) (r : request) :
  preserves (wifi_call w r).
Proof. now apply preserves_self. Qed.

Lemma preserves_random (a b : Z) : preserves (random_randint a b).
Proof. now apply preserves_self. Qed.

Lemma preserves_resp_close (resp : response) : preserves (resp_close resp).
Proof.
  apply preserves_bind; [apply preserves_emit | intros; apply preserves_lift].
Qed.

Lemma preserves_try_except {A} (m : M A) (h : exn -> M A) :
  preserves m -> (forall e, preserves (h e)) -> preserves (try_except m h).
Proof.
  intros Hm Hh st I. unfold try_except. specialize (Hm st I).
  destruct (m st) as [[e|a] st']; simpl in *; [|exact Hm].
  apply Hh, Hm.
Qed.

(** Assignments to the attributes the invariant does not read. *)
Lemma preserves_modify (f : Bridge -> Bridge) :
  (forall b, _bridge_ip (f b) = _bridge_ip b) ->
  (forall b, _bridge_url (f b) = _bridge_url b) ->
  (forall b, _username_url (f b) = _username_url b) ->
  preserves (modify f).
Proof.
  intros H1 H2 H3 st I. unfold modify. simpl.
  now apply (url_invariant_ext (self st)).
Qed.

(** [self._bridge_url = 'http://{}/api'.format(self._bridge_ip)] *)
Lemma preserves_set_bridge_url {A} (k : M A) :
  preserves k ->
  preserves (ip <- getattr "_bridge_ip" _bridge_ip ;;
             set__bridge_url ("http://" ++ py_str ip ++ "/api") ;;
             k).
Proof.
  intros Hk st I. unfold getattr at 1, bind at 1.
  destruct (_bridge_ip (self st)) as [ip|] eqn:Hip; [|exact I].
  unfold set__bridge_url, modify, bind at 1. apply Hk. cbn [self].
  destruct I as [I1 I2]. split.
  - intros ip' base. cbn. intros E1 E2. rewrite Hip in E1.
    inversion E1; inversion E2; subst. reflexivity.
  - intros u. cbn. intros E.
    destruct (I2 u E) as [base [name [Hb Hu]]].
    exists base, name. split; [|exact Hu].
    f_equal. symmetry. exact (I1 ip base Hip Hb).
Qed.

(** [self._username_url = self._bridge_url + '/' + username] *)
Lemma preserves_set_username_url {A} (name : string) (k : M A) :
  preserves k ->
  preserves (b <- getattr "_bridge_url" _bridge_url ;;
             set__username_url ((b ++ "/") ++ name) ;;
             k).
Proof.
  intros Hk st I. unfold getattr at 1, bind at 1.
  destruct (_bridge_url (self st)) as [base|] eqn:Hb; [|exact I].
  unfold set__username_url, modify, bind at 1. apply Hk. cbn [self].
  destruct I as [I1 I2]. split.
  - intros ip base'. cbn. intros E1 E2. exact (I1 ip base' E1 E2).
  - intros u. cbn. intros E. inversion E; subst.
    exists base, name. split; [exact Hb | apply append_assoc].
Qed.

Ltac preserve :=
  repeat first
    [ apply preserves_set_bridge_url
    | apply preserves_set_username_url
    | apply preserves_bind; [|intros]
    | apply preserves_try_except; [|intros]
    | apply preserves_ret | apply preserves_raise | apply preserves_lift
    | apply preserves_getattr | apply preserves_emit
    | apply preserves_wifi_call | apply preserves_random
    | apply preserves_resp_close
    | apply preserves_modify; intros; reflexivity
    | match goal with
      | |- preserves (if ?c then _ else _) => destruct c
      | |- preserves (match ?x with _ => _ end) => destruct x
      end ].

Lemma preserves_post (path : string) (data : value) : preserves (_post path data).
Proof. unfold _post. preserve. Qed.

Lemma preserves_put (path : string) (data : value) : preserves (_put path data).
Proof. unfold _put. preserve. Qed.

Lemma preserves_get (path : string) (data : value) : preserves (_get path data).
Proof. unfold _get. preserve. Qed.

Lemma preserves_discover_bridge : preserves discover_bridge.
Proof.
  unfold discover_bridge, set__ip, set_bridge_url. preserve.
Qed.

Lemma preserves_register_attempt (data username : value) :
  preserves (register_attempt data username).
Proof.
  unfold register_attempt, sleep. preserve.
Qed.

Lemma preserves_register_loop (data : value) (n : nat) :
  forall username resp, preserves (register_loop data n username resp).
Proof.
  induction n as [|n IH]; intros username resp; cbn [register_loop].
  - apply preserves_ret.
  - destruct (is_None username); [|apply preserves_ret].
    apply preserves_bind; [apply preserves_register_attempt|].
    intros r. apply IH.
Qed.

Lemma preserves_register_username : preserves register_username.
Proof.
  unfold register_username. apply preserves_set_bridge_url.
  apply preserves_bind; [apply preserves_random | intros r].
  apply preserves_bind; [apply preserves_getattr | intros w].
  apply preserves_bind; [apply preserves_getattr | intros url].
  apply preserves_bind; [apply preserves_wifi_call | intros resp].
  apply preserves_bind; [apply preserves_register_loop | intros out].
  preserve.
Qed.

Lemma preserves_run_op (op : resource_op) : preserves (run_op op).
Proof.
  destruct op; cbn [run_op];
    unfold show_light_info, set_light, get_light, get_lights, create_group,
      set_scene, set_group, get_groups, get_scenes, print, global;
    preserve; auto using preserves_get, preserves_put, preserves_post.
Qed.

Lemma exec_invariant (c : call) (st : state) :
  url_invariant (self st) -> url_invariant (self (exec c st)).
Proof.
  destruct c; cbn [exec].
  - apply preserves_discover_bridge.
  - apply preserves_register_username.
  - apply preserves_run_op.
  - apply preserves_post.
  - apply preserves_put.
  - apply preserves_get.
Qed.

Lemma blank_invariant (b : Bridge) :
  _bridge_url b = None -> _username_url b = None -> url_invariant b.
Proof.
  intros H1 H2. split; intros; congruence.
Qed.

Lemma init_invariant (w : wifi_manager) (bridge_ip username : value)
    (t : list event) :
  url_invariant (self (snd (__init__ w bridge_ip username (mkState new_object t)))).
Proof.
  unfold __init__.
  destruct (contains "ESPSPI_WiFiManager" (type_str w)
            || contains "ESPAT_WiFiManager" (type_str w));
    [|now apply blank_invariant].
  unfold set_wifi, modify, bind at 1.
  set (st := mkState (with_wifi w (self (mkState new_object t))) _).
  destruct (truthy bridge_ip && negb (is_None username)).
  - unfold set__bridge_url, modify, bind at 1.
    unfold getattr, bind at 1. cbn [self st with__bridge_url _bridge_url].
    unfold lift, bind at 1.
    destruct (py_concat _ username) as [e|u] eqn:E.
    + cbn. split; intros; cbn in *; congruence.
    + destruct username; try discriminate. cbn in E. inversion E; subst u.
      cbn. split; intros; cbn in *; [congruence|].
      match goal with H : Some _ = Some _ |- _ => inversion H; subst end.
      exists ("http://" ++ py_str bridge_ip ++ "/api"), s.
      split; [reflexivity|].
      exact (append_assoc ("http://" ++ py_str bridge_ip ++ "/api") "/" s).
  - unfold bind at 1.
    destruct (discover_bridge_keeps_urls st) as [K1 [K2 _]].
    destruct (discover_bridge st) as [[e|ip] st1]; cbn [fst snd] in *.
    + apply blank_invariant; [rewrite K1 | rewrite K2]; reflexivity.
    + unfold set__bridge_ip, modify, bind at 1.
      assert (P : preserves
                    (name <- register_username ;;
                     set__username name ;;
                     ip' <- getattr "_bridge_ip" _bridge_ip ;;
                     name' <- getattr "_username" _username ;;
                     raise (A := unit) (AssertionError (secrets_message ip' name')))).
      { apply preserves_bind; [apply preserves_register_username | intros].
        unfold set__username. preserve. }
      apply P. cbn [self]. apply blank_invariant; cbn; [rewrite K1 | rewrite K2];
        reflexivity.
Qed.

(** C8 (amended): in every state an object can reach, through [__init__]
    and any sequence of method calls, returning or raising, an authenticated
    URL that is set is the base URL of that state, a slash and a username: a
    string given to [__init__] or [str] of a [success.username] of a pairing
    answer.  That username may be the empty string. *)
Theorem authenticated_url_has_username (st : state) :
  reachable st ->
  forall u, _username_url (self st) = Some u ->
    exists base name,
      _bridge_url (self st) = Some base /\ u = base ++ "/" ++ name.
Proof.
  intros R.
  assert (I : url_invariant (self st)).
  { induction R as [w ip user t | c st R IH].
    - apply init_invariant.
    - apply exec_invariant, IH. }
  exact (proj2 I).
Qed.

(** ** Resource operations: what every one of them does *)

Lemma count_closes_app (t1 t2 : list event) :
  count_closes (t1 ++ t2) = count_closes t1 + count_closes t2.
Proof.
  unfold count_closes. now rewrite filter_app, length_app.
Qed.

Ltac unfold_ops :=
  unfold set_scene;
  unfold show_light_info, set_light, get_light, get_lights, create_group,
    set_group, get_groups, get_scenes, _get, _put, _post.

(** No resource operation assigns an attribute. *)
Lemma run_op_self (op : resource_op) (st : state) :
  self (snd (run_op op st)) = self st.
Proof.
  destruct st as [b t].
  destruct op; cbn [run_op]; unfold_ops; unfold_run; simpl;
    split_run; reflexivity.
Qed.

(** X1: a resource operation, whether it returns or raises, assigns no
    attribute of the object, only appends to the trace, makes at most one
    network call and never sleeps: there is no retry. *)
Theorem resource_op_frame (op : resource_op) (st : state) :
  self (snd (run_op op st)) = self st /\
  exists evs,
    trace (snd (run_op op st)) = (trace st ++ evs)%list /\
    count_requests evs <= 1 /\
    count_sleeps evs = 0.
Proof.
  split; [apply run_op_self|].
  destruct st as [b t].
  destruct op; cbn [run_op]; unfold_ops; unfold_run; simpl;
    split_run;
    first [ exists []; split; [now rewrite app_nil_r | split; cbv; lia]
          | eexists; split;
            [ rewrite <- ?app_assoc; reflexivity | split; cbv; lia ] ].
Qed.

(** X2: the network call of each operation is fixed by the authenticated
    URL and the arguments alone: GET [/lights/<id>], PUT
    [/lights/<id>/state] with the keyword arguments as body, GET [/lights],
    PUT [/groups/<id>/action], GET [/groups], GET [/scenes], nothing for
    [create_group]; and nothing at all when the URL or the transport is
    missing.  This holds whatever the transport answers. *)
Theorem resource_op_request (op : resource_op) (st : state) :
  network_calls (trace (snd (run_op op st))) =
    (network_calls (trace st) ++
     match _username_url (self st), _wifi (self st) with
     | Some url, Some _ =>
         match op_request url op with
         | Some rq => [rq]
         | None => []
         end
     | _, _ => []
     end)%list.
Proof.
  destruct st as [b t].
  destruct op; cbn [run_op op_request]; unfold_ops; unfold_run; simpl;
    (destruct (_username_url b) as [url|]; simpl;
     [|rewrite ?network_calls_app, ?app_nil_r; reflexivity]);
    try (destruct (_wifi b) as [w|]; simpl;
         [|rewrite ?network_calls_app, ?app_nil_r; reflexivity]);
    try (rewrite app_nil_r; reflexivity);
    split_run; simpl;
    repeat rewrite <- app_assoc; repeat rewrite network_calls_app;
    simpl; reflexivity.
Qed.

Ltac run_with Hu Hw :=
  unfold_ops; unfold_run; simpl in *;
  rewrite ?Hu; simpl; rewrite ?Hw; simpl.

(** X3: on a client with an authenticated URL and a transport, when the
    transport answers the operation's request and the answer decodes and
    closes, the operation returns the decoded JSON as it is ([set_scene]
    drops it and returns [None]), has closed the response once and has
    sent that one request. *)
Theorem resource_op_returns_json
    (op : resource_op) (st : state) (url : string) (w : wifi_manager)
    (rq : request) (resp : response) (v : value) :
  _username_url (self st) = Some url ->
  _wifi (self st) = Some w ->
  op_request url op = Some rq ->
  (forall h, respond w h rq = inr resp) ->
  json resp = inr v ->
  close resp = None ->
  fst (run_op op st) =
    inr (match op with SetScene _ _ => VNone | _ => v end) /\
  count_requests (trace (snd (run_op op st))) = count_requests (trace st) + 1 /\
  count_closes (trace (snd (run_op op st))) = count_closes (trace st) + 1.
Proof.
  intros Hu Hw Hrq Hr Hj Hc. destruct st as [b t].
  destruct op; cbn [run_op op_request] in *; inversion Hrq; subst rq;
    clear Hrq; run_with Hu Hw;
    rewrite Hr; simpl; rewrite Hj; simpl; rewrite Hc; simpl;
    (split; [reflexivity|]);
    rewrite <- ?app_assoc, ?count_requests_app, ?count_closes_app;
    split; cbv [count_requests count_closes network_calls filter is_close
                length]; lia.
Qed.

(** X4: nothing wraps a failure.  On a client with an authenticated URL and
    a transport, an exception of the transport, of [json()] or of [close()]
    is the exception of the operation; when the transport or [json()]
    raises, the operation closes nothing, so a response that does not decode
    is left open. *)
Theorem resource_op_propagates
    (op : resource_op) (st : state) (url : string) (w : wifi_manager)
    (rq : request) :
  _username_url (self st) = Some url ->
  _wifi (self st) = Some w ->
  op_request url op = Some rq ->
  (forall e, (forall h, respond w h rq = inl e) ->
     fst (run_op op st) = inl e /\
     count_closes (trace (snd (run_op op st))) = count_closes (trace st)) /\
  (forall resp e, (forall h, respond w h rq = inr resp) ->
     json resp = inl e ->
     fst (run_op op st) = inl e /\
     count_closes (trace (snd (run_op op st))) = count_closes (trace st)) /\
  (forall resp v e, (forall h, respond w h rq = inr resp) ->
     json resp = inr v ->
     close resp = Some e ->
     fst (run_op op st) = inl e).
Proof.
  intros Hu Hw Hrq. destruct st as [b t].
  split; [|split].
  - intros e Hr.
    destruct op; cbn [run_op op_request] in *; inversion Hrq; subst rq;
      clear Hrq; run_with Hu Hw;
      rewrite Hr; simpl;
      (split; [reflexivity|]);
      rewrite <- ?app_assoc, ?count_closes_app;
      cbv [count_closes filter is_close length]; lia.
  - intros resp e Hr Hj.
    destruct op; cbn [run_op op_request] in *; inversion Hrq; subst rq;
      clear Hrq; run_with Hu Hw;
      rewrite Hr; simpl; rewrite Hj; simpl;
      (split; [reflexivity|]);
      rewrite <- ?app_assoc, ?count_closes_app;
      cbv [count_closes filter is_close length]; lia.
  - intros resp v e Hr Hj Hc.
    destruct op; cbn [run_op op_request] in *; inversion Hrq; subst rq;
      clear Hrq; run_with Hu Hw;
      rewrite Hr; simpl; rewrite Hj; simpl; rewrite Hc; reflexivity.
Qed.

(** ** Registration: the answers that are not looked at, and failures *)

Section Passes.

Variables (w : wifi_manager) (url : string) (data : value).

Let rq : request := Req POST url (Some data).

(** The loop runs its whole budget when the answers from here on are
    refusals. *)
Lemma loop_refused_from (n : nat) :
  forall (st : state) (resp : response),
    _wifi (self st) = Some w ->
    _bridge_url (self st) = Some url ->
    (forall h, count_requests (trace st) <= count_requests h ->
               pairing_refused (respond w h rq) = true) ->
    exists resp',
      register_loop data (S n) VNone resp st =
        (inr (VNone, resp'),
         mkState (self st) (trace st ++ attempts_trace rq (S n))) /\
      close resp' = None.
Proof.
  induction n as [|n IH]; intros st resp Hw Hu Hr.
  - destruct (attempt_refused w url data VNone st Hw Hu (Hr _ (le_n _)))
      as [resp1 [E1 Hc1]].
    cbn [register_loop is_None]. unfold bind at 1. fold rq in E1. rewrite E1.
    cbn [fst snd register_loop]. exists resp1. split; [reflexivity | exact Hc1].
  - destruct (attempt_refused w url data VNone st Hw Hu (Hr _ (le_n _)))
      as [resp1 [E1 Hc1]]. fold rq in E1.
    set (st1 := mkState (self st) (trace st ++ [Request rq; Sleep 1])) in *.
    assert (C : count_requests (trace st1) = S (count_requests (trace st))).
    { unfold st1. cbn [trace]. rewrite count_requests_app.
      unfold count_requests at 2. simpl. lia. }
    destruct (IH st1 resp1 Hw Hu) as [resp' [E' Hc']].
    { intros h Hh. apply Hr. lia. }
    exists resp'. split; [|exact Hc'].
    change (register_loop data (S (S n)) VNone resp st)
      with (bind (register_attempt data VNone)
                 (fun r => register_loop data (S n) (fst r) (snd r)) st).
    unfold bind at 1. rewrite E1. cbn [fst snd]. rewrite E'.
    unfold st1. cbn [self trace]. rewrite <- app_assoc. reflexivity.
Qed.

(** A pass in which the transport raises ends the loop with that
    exception, before the sleep. *)
Lemma attempt_transport_error (username : value) (e : exn) (st : state) :
  _wifi (self st) = Some w ->
  _bridge_url (self st) = Some url ->
  respond w (trace st) rq = inl e ->
  register_attempt data username st =
    (inl e, mkState (self st) (trace st ++ [Request rq])).
Proof.
  intros Hw Hu Hr. destruct st as [b t]; simpl in *.
  unfold register_attempt. unfold_run. simpl. rewrite Hw. simpl.
  rewrite Hu. simpl. fold rq. rewrite Hr. reflexivity.
Qed.

Lemma loop_transport_error (e : exn) (k : nat) :
  forall (n : nat) (st : state) (resp : response),
    _wifi (self st) = Some w ->
    _bridge_url (self st) = Some url ->
    k < n ->
    (forall h, count_requests (trace st) <= count_requests h <
               count_requests (trace st) + k ->
               pairing_refused (respond w h rq) = true) ->
    (forall h, count_requests h = count_requests (trace st) + k ->
               respond w h rq = inl e) ->
    register_loop data n VNone resp st =
      (inl e,
       mkState (self st) (trace st ++ attempts_trace rq k ++ [Request rq])).
Proof.
  induction k as [|k IH]; intros n st resp Hw Hu Hn Hr He;
    (destruct n as [|n]; [lia|]).
  - assert (E : respond w (trace st) rq = inl e) by (apply He; lia).
    cbn [register_loop is_None]. unfold bind at 1.
    rewrite (attempt_transport_error VNone e st Hw Hu E). reflexivity.
  - assert (R : pairing_refused (respond w (trace st) rq) = true)
      by (apply Hr; lia).
    destruct (attempt_refused w url data VNone st Hw Hu R) as [resp1 [E1 Hc1]].
    fold rq in E1.
    cbn [register_loop is_None]. unfold bind at 1. rewrite E1.
    cbn [fst snd].
    set (st1 := mkState (self st) (trace st ++ [Request rq; Sleep 1])).
    assert (C : count_requests (trace st1) = S (count_requests (trace st))).
    { unfold st1. cbn [trace]. rewrite count_requests_app.
      unfold count_requests at 2. simpl. lia. }
    rewrite (IH n st1 resp1 Hw Hu).
    + unfold st1. cbn [self trace]. rewrite <- app_assoc. reflexivity.
    + lia.
    + intros h Hh. apply Hr. lia.
    + intros h Hh. apply He. lia.
Qed.

End Passes.

(** The steps of [register_username] up to the loop. *)
Lemma register_username_prelude
    (st : state) (w : wifi_manager) (ip : value) :
  _wifi (self st) = Some w ->
  _bridge_ip (self st) = Some ip ->
  let url := "http://" ++ py_str ip ++ "/api" in
  let data := devicetype_data (randint 0 100 (trace st)) in
  let rq := Req POST url (Some data) in
  register_username st =
    match respond w (trace st) rq with
    | inl e =>
        (inl e, mkState (with__bridge_url url (self st)) (trace st ++ [Request rq]))
    | inr resp =>
        bind (register_loop data 30 VNone resp)
             (fun out => resp_close (snd out) ;; ret (fst out))
             (mkState (with__bridge_url url (self st)) (trace st ++ [Request rq]))
    end.
Proof.
  intros Hw Hip url data rq. destruct st as [b t]. cbn [self trace] in *.
  unfold register_username.
  unfold getattr at 1, bind at 1. cbn [self]. rewrite Hip.
  unfold set__bridge_url, modify, bind at 1. cbn [self trace].
  unfold random_randint, bind at 1. cbn [self trace].
  unfold getattr at 1, bind at 1. cbn [self with__bridge_url _wifi].
  rewrite Hw.
  unfold getattr at 1, bind at 1. cbn [self with__bridge_url _bridge_url].
  unfold wifi_call, bind at 1. cbn [self trace].
  fold url. fold data. fold rq.
  destruct (respond w t rq); reflexivity.
Qed.

(** The whole run when the first request is answered and every later
    answer is a refusal. *)
Lemma register_username_refused_run
    (st : state) (w : wifi_manager) (ip : value) :
  _wifi (self st) = Some w ->
  _bridge_ip (self st) = Some ip ->
  let url := "http://" ++ py_str ip ++ "/api" in
  let rq := Req POST url (Some (devicetype_data (randint 0 100 (trace st)))) in
  answered (respond w (trace st) rq) = true ->
  (forall h, count_requests (trace st) < count_requests h ->
             pairing_refused (respond w h rq) = true) ->
  register_username st =
    (inr VNone,
     mkState (with__bridge_url url (self st))
             (trace st ++ Request rq :: attempts_trace rq 30 ++ [Close])).
Proof.
  intros Hw Hip url rq Ha Hr.
  rewrite (register_username_prelude st w ip Hw Hip). fold url. fold rq.
  destruct (respond w (trace st) rq) as [|resp0]; [discriminate|].
  set (st1 := mkState (with__bridge_url url (self st)) (trace st ++ [Request rq])).
  destruct (loop_refused_from w url (devicetype_data (randint 0 100 (trace st)))
              29 st1 resp0 Hw eq_refl) as [resp' [E' Hc']].
  { intros h Hh. apply Hr. unfold st1 in Hh. cbn [trace] in Hh.
    rewrite count_requests_app in Hh. unfold count_requests at 2 in Hh.
    simpl in Hh. lia. }
  fold rq in E'. unfold bind at 1. rewrite E'. cbn [fst snd].
  unfold resp_close, emit, lift, bind, ret. rewrite Hc'.
  unfold st1. cbn [self trace]. rewrite <- !app_assoc. reflexivity.
Qed.

(** The whole run when the first request is answered, the first [k] passes
    are refused and pass [k + 1] is granted. *)
Lemma register_username_granted_run
    (st : state) (w : wifi_manager) (ip u : value) (k : nat) :
  _wifi (self st) = Some w ->
  _bridge_ip (self st) = Some ip ->
  k < 30 ->
  let url := "http://" ++ py_str ip ++ "/api" in
  let rq := Req POST url (Some (devicetype_data (randint 0 100 (trace st)))) in
  answered (respond w (trace st) rq) = true ->
  (forall h, count_requests (trace st) < count_requests h <
             count_requests (trace st) + S k ->
             pairing_refused (respond w h rq) = true) ->
  (forall h, count_requests h = count_requests (trace st) + S k ->
             granted_username (respond w h rq) = Some u) ->
  register_username st =
    (inr (VStr (py_str u)),
     mkState (with__username_url ((url ++ "/") ++ py_str u)
                (with__bridge_url url (self st)))
             (trace st ++ Request rq :: attempts_trace rq (S k) ++ [Close])).
Proof.
  intros Hw Hip Hk url rq Ha Hr Hg.
  rewrite (register_username_prelude st w ip Hw Hip). fold url. fold rq.
  destruct (respond w (trace st) rq) as [|resp0]; [discriminate|].
  set (st1 := mkState (with__bridge_url url (self st)) (trace st ++ [Request rq])).
  assert (C : count_requests (trace st1) = S (count_requests (trace st))).
  { unfold st1. cbn [trace]. rewrite count_requests_app.
    unfold count_requests at 2. simpl. lia. }
  destruct (loop_granted w url (devicetype_data (randint 0 100 (trace st)))
              u k 30 st1 resp0 Hw eq_refl)
    as [resp' [E' Hc']].
  - exact Hk.
  - intros h Hh. apply Hr. lia.
  - intros h Hh. apply Hg. lia.
  - fold rq in E'. unfold bind at 1. rewrite E'. cbn [fst snd].
    unfold resp_close, emit, lift, bind, ret. rewrite Hc'.
    unfold st1. cbn [self trace]. rewrite <- !app_assoc. reflexivity.
Qed.

Lemma granted_answered (r : result response) (u : value) :
  granted_username r = Some u -> answered r = true.
Proof.
  destruct r; [discriminate | reflexivity].
Qed.

(** X5: the answer to the pairing request sent before the loop is never
    looked at.  Let that request be answered in any way, even with a grant
    of a username, and let every later answer be a refusal: registration
    still runs all 30 passes, returns [None] and leaves the authenticated
    URL as it was. *)
Theorem register_username_discards_first_answer
    (st : state) (w : wifi_manager) (ip : value) :
  _wifi (self st) = Some w ->
  _bridge_ip (self st) = Some ip ->
  (forall h r, count_requests h = count_requests (trace st) ->
               answered (respond w h r) = true) ->
  (forall h r, count_requests (trace st) < count_requests h ->
               pairing_refused (respond w h r) = true) ->
  fst (register_username st) = inr VNone /\
  _username_url (self (snd (register_username st))) = _username_url (self st) /\
  count_requests (trace (snd (register_username st))) =
    count_requests (trace st) + 31 /\
  count_sleeps (trace (snd (register_username st))) =
    count_sleeps (trace st) + 30.
Proof.
  intros Hw Hip Ha Hr.
  rewrite (register_username_refused_run st w ip Hw Hip (Ha _ _ eq_refl)
             (fun h Hh => Hr h _ Hh)).
  cbn [fst snd self trace with__bridge_url _username_url].
  split; [reflexivity|]. split; [reflexivity|].
  match goal with
  | |- context [(?t ++ Request ?r :: ?a ++ [Close])%list] =>
      change (t ++ Request r :: a ++ [Close])%list
        with (t ++ [Request r] ++ a ++ [Close])%list
  end.
  rewrite !count_requests_app, !count_sleeps_app,
    count_requests_attempts, count_sleeps_attempts.
  split; reflexivity.
Qed.

(** X6: registration does not retry a request that fails.  When the request
    before the loop is answered, the first [k] passes are refused and the
    transport raises in pass [k + 1], [register_username] raises that
    exception at once: no further request, no sleep after the failed
    request, no response closed, no authenticated URL set. *)
Theorem register_username_transport_error
    (st : state) (w : wifi_manager) (ip : value) (e : exn) (k : nat) :
  _wifi (self st) = Some w ->
  _bridge_ip (self st) = Some ip ->
  k < 30 ->
  (forall h r, count_requests h = count_requests (trace st) ->
               answered (respond w h r) = true) ->
  (forall h r, count_requests (trace st) < count_requests h <
               count_requests (trace st) + S k ->
               pairing_refused (respond w h r) = true) ->
  (forall h r, count_requests h = count_requests (trace st) + S k ->
               respond w h r = inl e) ->
  let rq := Req POST ("http://" ++ py_str ip ++ "/api")
                (Some (devicetype_data (randint 0 100 (trace st)))) in
  fst (register_username st) = inl e /\
  trace (snd (register_username st)) =
    (trace st ++ Request rq :: attempts_trace rq k ++ [Request rq])%list /\
  count_closes (trace (snd (register_username st))) = count_closes (trace st) /\
  _username_url (self (snd (register_username st))) = _username_url (self st).
Proof.
  intros Hw Hip Hk Ha Hr He rq.
  set (url := "http://" ++ py_str ip ++ "/api") in *.
  set (data := devicetype_data (randint 0 100 (trace st))) in *.
  assert (E : register_username st =
              (inl e,
               mkState (with__bridge_url url (self st))
                       (trace st ++ Request rq :: attempts_trace rq k ++
                          [Request rq]))).
  { rewrite (register_username_prelude st w ip Hw Hip).
    fold url. fold data. fold rq.
    pose proof (Ha (trace st) rq eq_refl) as A. unfold answered in A.
    destruct (respond w (trace st) rq) as [|resp0]; [discriminate|].
    set (st1 := mkState (with__bridge_url url (self st))
                        (trace st ++ [Request rq])).
    assert (C : count_requests (trace st1) = S (count_requests (trace st))).
    { unfold st1. cbn [trace]. rewrite count_requests_app.
      unfold count_requests at 2. simpl. lia. }
    unfold bind at 1.
    rewrite (loop_transport_error w url data e k 30 st1 resp0 Hw eq_refl Hk).
    - fold rq. unfold st1. cbn [self trace]. now rewrite <- app_assoc.
    - intros h Hh. apply Hr. lia.
    - intros h Hh. apply He. lia. }
  rewrite E. cbn [fst snd self trace with__bridge_url _username_url].
  split; [reflexivity|]. split; [reflexivity|]. split; [|reflexivity].
  change (trace st ++ Request rq :: attempts_trace rq k ++ [Request rq])%list
    with (trace st ++ [Request rq] ++ attempts_trace rq k ++ [Request rq])%list.
  rewrite !count_closes_app.
  assert (Z : forall n, count_closes (attempts_trace rq n) = 0).
  { induction n as [|n IH]; [reflexivity|].
    rewrite attempts_trace_S. unfold count_closes in *. simpl. exact IH. }
  rewrite Z. unfold count_closes. simpl. lia.
Qed.

(** ** What no method changes *)

Lemma keeps_bind {A B C} (f : Bridge -> C) (m : M A) (k : A -> M B) :
  keeps f m -> (forall a, keeps f (k a)) -> keeps f (bind m k).
Proof.
  intros Hm Hk st. unfold bind. specialize (Hm st).
  destruct (m st) as [[e|a] st']; simpl in *; [exact Hm|].
  now rewrite Hk.
Qed.

Lemma keeps_try_except {A C} (f : Bridge -> C) (m : M A) (h : exn -> M A) :
  keeps f m -> (forall e, keeps f (h e)) -> keeps f (try_except m h).
Proof.
  intros Hm Hh st. unfold try_except. specialize (Hm st).
  destruct (m st) as [[e|a] st']; simpl in *; [|exact Hm].
  now rewrite Hh.
Qed.

Lemma keeps_self {A C} (f : Bridge -> C) (m : M A) :
  (forall st, self (snd (m st)) = self st) -> keeps f m.
Proof.
  intros H st. now rewrite H.
Qed.

Lemma keeps_getattr {A C} (f : Bridge -> C) (name : string)
    (field : Bridge -> option A) :
  keeps f (getattr name field).
Proof.
  apply keeps_self. intros st. unfold getattr.
  now destruct (field (self st)).
Qed.

Lemma keeps_modify {C} (f : Bridge -> C) (g : Bridge -> Bridge) :
  (forall b, f (g b) = f b) -> keeps f (modify g).
Proof.
  intros H st. apply H.
Qed.

Ltac keep :=
  repeat first
    [ apply keeps_bind; [|intros]
    | apply keeps_try_except; [|intros]
    | apply keeps_getattr
    | apply keeps_modify; intros; reflexivity
    | apply keeps_self; intros; reflexivity
    | match goal with
      | |- keeps _ (if ?c then _ else _) => destruct c
      | |- keeps _ (match ?x with _ => _ end) => destruct x
      end ].

Ltac unfold_setters :=
  unfold set_wifi, set__bridge_url, set__username_url, set__bridge_ip,
    set__username, set__ip, set_bridge_url, resp_json, resp_close, sleep,
    print, global, random_randint.

Lemma register_loop_keeps {C} (f : Bridge -> C) (data : value) (n : nat) :
  (forall u b, f (with__username_url u b) = f b) ->
  forall username resp, keeps f (register_loop data n username resp).
Proof.
  intros Hf. induction n as [|n IH]; intros username resp; cbn [register_loop].
  - keep.
  - destruct (is_None username); [|keep].
    apply keeps_bind; [|intros r; apply IH].
    unfold register_attempt. unfold_setters. keep.
    apply keeps_modify. intros; apply Hf.
Qed.

Lemma register_username_keeps {C} (f : Bridge -> C) :
  (forall u b, f (with__username_url u b) = f b) ->
  (forall u b, f (with__bridge_url u b) = f b) ->
  keeps f register_username.
Proof.
  intros H1 H2. unfold register_username.
  apply keeps_bind; [keep | intros ip].
  apply keeps_bind; [apply keeps_modify; intros; apply H2 | intros _].
  apply keeps_bind; [unfold random_randint; keep | intros r].
  apply keeps_bind; [keep | intros w].
  apply keeps_bind; [keep | intros url].
  apply keeps_bind; [keep | intros resp].
  apply keeps_bind; [now apply register_loop_keeps | intros out].
  unfold_setters. keep.
Qed.

Lemma discover_bridge_keeps {C} (f : Bridge -> C) :
  (forall v b, f (with__ip v b) = f b) ->
  (forall u b, f (with_bridge_url u b) = f b) ->
  keeps f discover_bridge.
Proof.
  intros H1 H2. unfold discover_bridge. unfold_setters.
  apply keeps_bind; [keep | intros a].
  apply keeps_bind; [apply keeps_modify; intros; apply H1 | intros _].
  apply keeps_bind; [keep | intros ip].
  apply keeps_bind; [apply keeps_modify; intros; apply H2 | intros _].
  keep.
Qed.

Lemma helper_self (c : call) (st : state) :
  match c with
  | CallPost _ _ | CallPut _ _ | CallGet _ _ => self (exec c st) = self st
  | _ => True
  end.
Proof.
  destruct st as [b t].
  destruct c; try exact I; cbn [exec]; unfold _post, _put, _get;
    unfold_run; simpl; destruct (_wifi b); reflexivity.
Qed.

(** X7: no method call, whatever its arguments and outcome, replaces the
    transport or assigns [_bridge_ip]: [__init__] alone sets them. *)
Theorem calls_keep_transport_and_address (c : call) (st : state) :
  _wifi (self (exec c st)) = _wifi (self st) /\
  _bridge_ip (self (exec c st)) = _bridge_ip (self st).
Proof.
  destruct c.
  - cbn [exec]. split; apply discover_bridge_keeps; reflexivity.
  - cbn [exec]. split; apply register_username_keeps; reflexivity.
  - cbn [exec]. rewrite run_op_self. split; reflexivity.
  - rewrite (helper_self (CallPost path data) st). split; reflexivity.
  - rewrite (helper_self (CallPut path data) st). split; reflexivity.
  - rewrite (helper_self (CallGet path data) st). split; reflexivity.
Qed.

(** ** Construction: when it returns, and what provisioning raises *)

Lemma always_raises_bind {A B} (m : M A) (k : A -> M B) :
  (forall a, always_raises (k a)) -> always_raises (bind m k).
Proof.
  intros Hk st. unfold bind.
  destruct (m st) as [[e|a] st']; [now exists e | apply Hk].
Qed.

Lemma always_raises_raise {A} (e : exn) : always_raises (@raise A e).
Proof. intros st. now exists e. Qed.

(** What a returning [__init__] has made of a new object. *)
Lemma init_returned (w : wifi_manager) (bridge_ip username : value)
    (t : list event) :
  fst (__init__ w bridge_ip username (mkState new_object t)) = inr tt ->
  supported w = true /\
  truthy bridge_ip = true /\
  exists name,
    username = VStr name /\
    snd (__init__ w bridge_ip username (mkState new_object t)) =
      mkState (mkBridge (Some w)
                        (Some ("http://" ++ py_str bridge_ip ++ "/api"))
                        (Some (("http://" ++ py_str bridge_ip ++ "/api") ++ "/" ++ name))
                        None None None None) t.
Proof.
  unfold __init__, supported.
  destruct (contains "ESPSPI_WiFiManager" (type_str w)
            || contains "ESPAT_WiFiManager" (type_str w)); [|discriminate].
  unfold set_wifi, modify, bind at 1.
  destruct (truthy bridge_ip) eqn:Ht; cbn [andb].
  - destruct username; cbn [is_None negb];
      try (intros H; split; [reflexivity|]; split; [reflexivity|]);
      try (cbv [bind set__bridge_url modify getattr lift py_concat fst snd self
                _bridge_url with__bridge_url] in H; discriminate H).
    + exfalso. revert H.
      match goal with
      | |- fst (?m ?st) = _ -> _ =>
          assert (R : always_raises m);
          [| destruct (R st) as [e He]; rewrite He; discriminate ]
      end.
      repeat (apply always_raises_bind; intros). apply always_raises_raise.
    + exists s. split; [reflexivity|].
      unfold set__bridge_url, set__username_url, modify, getattr, lift, bind.
      cbn. rewrite append_assoc. reflexivity.
  - intros H. exfalso. revert H.
    match goal with
    | |- fst (?m ?st) = _ -> _ =>
        assert (R : always_raises m);
        [| destruct (R st) as [e He]; rewrite He; discriminate ]
    end.
    repeat (apply always_raises_bind; intros). apply always_raises_raise.
Qed.

(** X8: [__init__] returns exactly when the transport is a supported WiFi
    manager, the address is truthy and the username is a string (the empty
    one included).  In every other case, an address without a username
    among them, it raises. *)
Theorem init_returns_iff (w : wifi_manager) (bridge_ip username : value)
    (t : list event) :
  fst (__init__ w bridge_ip username (mkState new_object t)) = inr tt <->
  supported w = true /\ truthy bridge_ip = true /\
  exists name, username = VStr name.
Proof.
  split.
  - intros H. destruct (init_returned w bridge_ip username t H)
      as [Hs [Ht [name [Hn _]]]].
    split; [exact Hs|]. split; [exact Ht|]. now exists name.
  - intros [Hs [Ht [name Hn]]]. subst username.
    unfold __init__. unfold supported in Hs. rewrite Hs, Ht. reflexivity.
Qed.

(** The whole run of a discovery that succeeds. *)
Lemma discover_bridge_run
    (st : state) (w : wifi_manager) (resp : response)
    (d : list (string * value)) (rest : list value) (address : value) :
  _wifi (self st) = Some w ->
  respond w (trace st) (Req GET discovery_url None) = inr resp ->
  json resp = inr (VList (VDict d :: rest)) ->
  lookup "internalipaddress" d = Some address ->
  close resp = None ->
  discover_bridge st =
    (inr address,
     mkState (with_bridge_url ("http://" ++ py_str address ++ "/api")
                (with__ip address (self st)))
             (trace st ++ [Request (Req GET discovery_url None); Close])).
Proof.
  intros Hw Hr Hj Hl Hc. destruct st as [b t]. cbn [self trace] in *.
  unfold discover_bridge. unfold_run. cbn [self trace]. rewrite Hw.
  cbn [self trace]. rewrite Hr. cbn [self trace json]. rewrite Hj.
  cbn [py_index0 py_getitem]. rewrite Hl. cbn [self trace]. rewrite Hc.
  cbn [self trace with__ip _ip]. rewrite <- app_assoc. reflexivity.
Qed.

(** [__init__] without credentials, up to the registration. *)
Lemma init_provisioning
    (w : wifi_manager) (bridge_ip username : value) (t : list event)
    (resp : response) (d : list (string * value)) (rest : list value)
    (address : value) :
  supported w = true ->
  truthy bridge_ip && negb (is_None username) = false ->
  respond w t (Req GET discovery_url None) = inr resp ->
  json resp = inr (VList (VDict d :: rest)) ->
  lookup "internalipaddress" d = Some address ->
  close resp = None ->
  __init__ w bridge_ip username (mkState new_object t) =
    bind register_username
         (fun name =>
            set__username name ;;
            ip' <- getattr "_bridge_ip" _bridge_ip ;;
            name' <- getattr "_username" _username ;;
            raise (AssertionError (secrets_message ip' name')))
         (mkState (provisioned w address)
                  (t ++ [Request (Req GET discovery_url None); Close])).
Proof.
  intros Hs Hc Hr Hj Hl Hcl.
  unfold __init__. unfold supported in Hs. rewrite Hs, Hc.
  unfold set_wifi, modify, bind at 1. cbn [self trace].
  unfold bind at 1.
  rewrite (discover_bridge_run (mkState (with_wifi w new_object) t) w resp d
             rest address eq_refl Hr Hj Hl Hcl).
  reflexivity.
Qed.

(** X9: provisioning with the link button never pressed.  Without both
    credentials, on a supported transport whose discovery answer has a
    first candidate with an address and whose every answer to a POST is a
    refusal, [__init__] raises the [AssertionError] that names the
    discovered address and the username [None], after the discovery GET, 31
    pairing requests and 30 sleeps.  An address passed in is not used. *)
Theorem init_provisioning_unpressed
    (w : wifi_manager) (bridge_ip username : value) (t : list event)
    (resp : response) (d : list (string * value)) (rest : list value)
    (address : value) :
  supported w = true ->
  truthy bridge_ip && negb (is_None username) = false ->
  respond w t (Req GET discovery_url None) = inr resp ->
  json resp = inr (VList (VDict d :: rest)) ->
  lookup "internalipaddress" d = Some address ->
  close resp = None ->
  (forall h r, req_method r = POST -> pairing_refused (respond w h r) = true) ->
  let out := __init__ w bridge_ip username (mkState new_object t) in
  fst out = inl (AssertionError (secrets_message address VNone)) /\
  count_requests (trace (snd out)) = count_requests t + 32 /\
  count_sleeps (trace (snd out)) = count_sleeps t + 30 /\
  _bridge_ip (self (snd out)) = Some address /\
  _username_url (self (snd out)) = None.
Proof.
  intros Hs Hc Hr Hj Hl Hcl Hp out.
  set (st := mkState (provisioned w address)
                     (t ++ [Request (Req GET discovery_url None); Close])).
  set (url := "http://" ++ py_str address ++ "/api").
  set (rq := Req POST url (Some (devicetype_data (randint 0 100 (trace st))))).
  assert (E : out =
              (inl (AssertionError (secrets_message address VNone)),
               mkState (with__username VNone
                          (with__bridge_url url (provisioned w address)))
                       (trace st ++ Request rq :: attempts_trace rq 30 ++ [Close]))).
  { subst out.
    rewrite (init_provisioning w bridge_ip username t resp d rest address
               Hs Hc Hr Hj Hl Hcl).
    fold st. unfold bind at 1.
    rewrite (register_username_refused_run st w address eq_refl eq_refl).
    - reflexivity.
    - pose proof (Hp (trace st) rq eq_refl) as P.
      unfold pairing_refused in P. unfold answered. fold url. fold rq.
      destruct (respond w (trace st) rq); [discriminate | reflexivity].
    - intros h _. apply Hp. reflexivity. }
  rewrite E. cbn [fst snd self trace].
  split; [reflexivity|].
  change (trace st ++ Request rq :: attempts_trace rq 30 ++ [Close])%list
    with ((t ++ [Request (Req GET discovery_url None); Close]) ++
          [Request rq] ++ attempts_trace rq 30 ++ [Close])%list.
  rewrite !count_requests_app, !count_sleeps_app,
    count_requests_attempts, count_sleeps_attempts.
  split; [|split; [|split; reflexivity]].
  - unfold count_requests. simpl. lia.
  - unfold count_sleeps. simpl. lia.
Qed.

(** X10: provisioning with the link button pressed.  With the discovery
    answer as before, the request before the loop answered, [k] passes
    refused and pass [k + 1] granting a username, [__init__] still does not
    return: it raises the [AssertionError] that names the discovered address
    and [str] of the username, for the caller to store.  By then the
    authenticated URL of the object is the base URL of the discovered
    address, a slash and that string. *)
Theorem init_provisioning_granted
    (w : wifi_manager) (bridge_ip username : value) (t : list event)
    (resp : response) (d : list (string * value)) (rest : list value)
    (address u : value) (k : nat) :
  supported w = true ->
  truthy bridge_ip && negb (is_None username) = false ->
  respond w t (Req GET discovery_url None) = inr resp ->
  json resp = inr (VList (VDict d :: rest)) ->
  lookup "internalipaddress" d = Some address ->
  close resp = None ->
  k < 30 ->
  (forall h r, req_method r = POST ->
               count_requests h = count_requests t + 1 ->
               answered (respond w h r) = true) ->
  (forall h r, req_method r = POST ->
               count_requests t + 1 < count_requests h <
               count_requests t + 2 + k ->
               pairing_refused (respond w h r) = true) ->
  (forall h r, req_method r = POST ->
               count_requests h = count_requests t + 2 + k ->
               granted_username (respond w h r) = Some u) ->
  let out := __init__ w bridge_ip username (mkState new_object t) in
  fst out = inl (AssertionError (secrets_message address (VStr (py_str u)))) /\
  _username_url (self (snd out)) =
    Some ("http://" ++ py_str address ++ "/api/" ++ py_str u) /\
  _username (self (snd out)) = Some (VStr (py_str u)) /\
  count_requests (trace (snd out)) = count_requests t + 3 + k.
Proof.
  intros Hs Hc Hr Hj Hl Hcl Hk Ha Hp Hg out.
  set (st := mkState (provisioned w address)
                     (t ++ [Request (Req GET discovery_url None); Close])).
  set (url := "http://" ++ py_str address ++ "/api").
  set (rq := Req POST url (Some (devicetype_data (randint 0 100 (trace st))))).
  assert (C : count_requests (trace st) = count_requests t + 1).
  { unfold st. cbn [trace]. rewrite count_requests_app.
    unfold count_requests at 2. simpl. reflexivity. }
  assert (E : out =
              (inl (AssertionError (secrets_message address (VStr (py_str u)))),
               mkState (with__username (VStr (py_str u))
                          (with__username_url ((url ++ "/") ++ py_str u)
                             (with__bridge_url url (provisioned w address))))
                       (trace st ++ Request rq :: attempts_trace rq (S k) ++
                          [Close]))).
  { subst out.
    rewrite (init_provisioning w bridge_ip username t resp d rest address
               Hs Hc Hr Hj Hl Hcl).
    fold st. unfold bind at 1.
    rewrite (register_username_granted_run st w address u k eq_refl eq_refl Hk).
    - reflexivity.
    - apply Ha; [reflexivity | exact C].
    - intros h Hh. apply Hp; [reflexivity | lia].
    - intros h Hh. apply Hg; [reflexivity | lia]. }
  rewrite E. cbn [fst snd self trace with__username with__username_url
                  _username_url _username].
  split; [reflexivity|].
  split; [unfold url; now rewrite !append_assoc|].
  split; [reflexivity|].
  change (trace st ++ Request rq :: attempts_trace rq (S k) ++ [Close])%list
    with (trace st ++ [Request rq] ++ attempts_trace rq (S k) ++ [Close])%list.
  rewrite !count_requests_app, count_requests_attempts, C.
  unfold count_requests. simpl. lia.
Qed.

(** ** The client that [__init__] returned *)

(** Without [_bridge_ip], registration stops at its first line. *)
Lemma register_username_unprovisioned (st : state) :
  _bridge_ip (self st) = None ->
  register_username st = (inl (AttributeError "_bridge_ip"), st).
Proof.
  intros H. unfold register_username, getattr at 1, bind at 1.
  rewrite H. reflexivity.
Qed.

Lemma exec_keeps (c : call) (st : state) :
  _bridge_ip (self st) = None ->
  _wifi (self (exec c st)) = _wifi (self st) /\
  _bridge_url (self (exec c st)) = _bridge_url (self st) /\
  _username_url (self (exec c st)) = _username_url (self st) /\
  _bridge_ip (self (exec c st)) = None.
Proof.
  intros H. destruct c.
  - cbn [exec]. rewrite <- H.
    repeat split; apply discover_bridge_keeps; reflexivity.
  - cbn [exec]. rewrite (register_username_unprovisioned st H).
    repeat split; try reflexivity. exact H.
  - cbn [exec]. rewrite run_op_self. repeat split; try reflexivity. exact H.
  - rewrite (helper_self (CallPost path data) st).
    repeat split; try reflexivity. exact H.
  - rewrite (helper_self (CallPut path data) st).
    repeat split; try reflexivity. exact H.
  - rewrite (helper_self (CallGet path data) st).
    repeat split; try reflexivity. exact H.
Qed.

Lemma constructed_inv (st : state) :
  constructed st ->
  _bridge_ip (self st) = None /\
  exists w base name,
    _wifi (self st) = Some w /\
    _bridge_url (self st) = Some base /\
    _username_url (self st) = Some (base ++ "/" ++ name).
Proof.
  intros H. induction H as [w ip user t R | c st H [I1 [w [base [name I2]]]]].
  - destruct (init_returned w ip user t R) as [_ [_ [name [_ E]]]].
    rewrite E. cbn. split; [reflexivity|].
    eexists; eexists; exists name. repeat split; reflexivity.
  - destruct (exec_keeps c st I1) as [K1 [K2 [K3 K4]]].
    split; [exact K4|]. exists w, base, name.
    rewrite K1, K2, K3. exact I2.
Qed.

(** X11: a client that [__init__] returned cannot register.  After any
    sequence of method calls, [register_username] raises [AttributeError]
    for [_bridge_ip], which only the provisioning path of [__init__]
    assigns; it sends nothing and changes nothing. *)
Theorem register_username_on_client (st : state) :
  constructed st ->
  register_username st = (inl (AttributeError "_bridge_ip"), st).
Proof.
  intros H. apply register_username_unprovisioned.
  exact (proj1 (constructed_inv st H)).
Qed.

(** X12: a client that [__init__] returned keeps its transport, its base
    URL and its authenticated URL: they are set, the authenticated URL is
    the base URL, a slash and the username, and no method call, whatever
    it returns or raises, changes any of them; [discover_bridge] included,
    which does not redirect the client to the bridge it finds. *)
Theorem client_is_stable (st : state) :
  constructed st ->
  exists w base name,
    _wifi (self st) = Some w /\
    _bridge_url (self st) = Some base /\
    _username_url (self st) = Some (base ++ "/" ++ name) /\
    forall c,
      _wifi (self (exec c st)) = Some w /\
      _bridge_url (self (exec c st)) = Some base /\
      _username_url (self (exec c st)) = Some (base ++ "/" ++ name).
Proof.
  intros H. destruct (constructed_inv st H) as [I1 [w [base [name [A [B C]]]]]].
  exists w, base, name. repeat split; try assumption;
    destruct (exec_keeps c st I1) as [K1 [K2 [K3 _]]]; congruence.
Qed.

(** ** The test of the transport's type *)

Lemma prefix_iff (a b : string) :
  String.prefix a b = true <-> exists post, b = a ++ post.
Proof.
  revert b. induction a as [|c a IH]; intros b.
  - split; [intros _; now exists b | intros _; now destruct b].
  - destruct b as [|c' b]; simpl.
    + split; [discriminate | intros [post H]; discriminate].
    + destruct (ascii_dec c c') as [->|N].
      * rewrite IH. split; intros [post H]; exists post.
        -- now rewrite H.
        -- now inversion H.
      * split; [discriminate|]. intros [post H]. inversion H. congruence.
Qed.

Lemma contains_iff (needle hay : string) :
  contains needle hay = true <->
  exists pre post, hay = pre ++ needle ++ post.
Proof.
  split.
  - induction hay as [|c hay IH]; cbn [contains]; intros H.
    + rewrite orb_false_r in H. apply prefix_iff in H. destruct H as [post H].
      now exists EmptyString, post.
    + apply orb_true_iff in H. destruct H as [H|H].
      * apply prefix_iff in H. destruct H as [post H].
        now exists EmptyString, post.
      * destruct (IH H) as [pre [post E]].
        exists (String c pre), post. cbn [append]. now rewrite E.
  - intros [pre [post E]]. revert hay E.
    induction pre as [|c pre IH]; intros hay E.
    + cbn [append] in E. destruct hay; cbn [contains]; apply orb_true_iff; left;
        apply prefix_iff; now exists post.
    + cbn [append] in E. subst hay. cbn [contains]. apply orb_true_iff. right.
      now apply IH.
Qed.

(** X13: the test [__init__] makes on [str(type(wifi_manager))] is a
    substring test: the transport is taken exactly when one of the two
    class names occurs somewhere in that string, whatever surrounds it. *)
Theorem supported_iff_substring (w : wifi_manager) :
  supported w = true <->
  (exists pre post, type_str w = pre ++ "ESPSPI_WiFiManager" ++ post) \/
  (exists pre post, type_str w = pre ++ "ESPAT_WiFiManager" ++ post).
Proof.
  unfold supported. rewrite orb_true_iff, !contains_iff. reflexivity.
Qed.

End Hue.

(** ** The theorems at concrete inputs *)

(** [third_pass_wifi] refuses until its third request. *)
Lemma third_pass_refused_before (h : list event) (r : request) :
  0 < count_requests h < 0 + 3 ->
  pairing_refused (respond third_pass_wifi h r) = true.
Proof.
  intros H. unfold third_pass_wifi, respond.
  destruct (Nat.ltb_spec (count_requests h) 3); [reflexivity | lia].
Defined.

(** [discover_bridge] at the answer [[{"internalipaddress": "10.0.0.5"}]]. *)
Lemma discover_bridge_spec_witness :
  fst (discover_bridge no_repr (mkState (with_wifi home_wifi new_object) [])) =
    inr (VStr "10.0.0.5") /\
  bridge_url (self (snd (discover_bridge no_repr
                           (mkState (with_wifi home_wifi new_object) [])))) =
    Some "http://10.0.0.5/api".
Proof.
  destruct (discover_bridge_spec no_repr
              (mkState (with_wifi home_wifi new_object) [])) as [_ H].
  destruct (H home_wifi eq_refl) as [_ [_ [_ [_ H4]]]].
  destruct (H4 (json_response discovery_answer)
               [("id", VStr "001788fffe100491");
                ("internalipaddress", VStr "10.0.0.5")]
               [] (VStr "10.0.0.5") eq_refl eq_refl eq_refl eq_refl)
    as [A [_ [B _]]].
  split; [exact A | exact B].
Defined.

(** [Bridge(wifi, "10.0.0.5", "abc123")] *)
Lemma init_with_credentials_witness :
  supported home_wifi = true /\
  "10.0.0.5" <> EmptyString /\
  fst (__init__ no_repr fixed_randint home_wifi (VStr "10.0.0.5") (VStr "abc123")
         fresh) = inr tt /\
  trace (snd (__init__ no_repr fixed_randint home_wifi (VStr "10.0.0.5")
                (VStr "abc123") fresh)) = [] /\
  _username_url (self (snd (__init__ no_repr fixed_randint home_wifi
                              (VStr "10.0.0.5") (VStr "abc123") fresh))) =
    Some "http://10.0.0.5/api/abc123".
Proof.
  assert (S : supported home_wifi = true) by reflexivity.
  assert (A : "10.0.0.5" <> EmptyString) by discriminate.
  destruct (init_with_credentials no_repr fixed_randint home_wifi
              "10.0.0.5" "abc123" [] S A) as [R [T [_ [_ U]]]].
  repeat split; assumption.
Defined.

(** [Bridge(socket_pool, "10.0.0.5", "abc123")] *)
Lemma init_rejects_other_transports_witness :
  contains "ESPSPI_WiFiManager" (type_str socket_pool) = false /\
  contains "ESPAT_WiFiManager" (type_str socket_pool) = false /\
  __init__ no_repr fixed_randint socket_pool (VStr "10.0.0.5") (VStr "abc123")
    fresh = (inl (TypeError wifi_message), fresh).
Proof.
  split; [reflexivity|]. split; [reflexivity|].
  apply (init_rejects_other_transports no_repr fixed_randint socket_pool
           (VStr "10.0.0.5") (VStr "abc123") fresh); reflexivity.
Defined.

(** [get_light(1)] on an object without an authenticated URL. *)
Lemma resource_op_without_username_witness :
  _username_url (self fresh) = None /\
  exists e,
    fst (run_op no_repr (GetLight (VInt 1)) fresh) = inl e /\
    self (snd (run_op no_repr (GetLight (VInt 1)) fresh)) = self fresh /\
    network_calls (trace (snd (run_op no_repr (GetLight (VInt 1)) fresh))) =
      network_calls (trace fresh) /\
    (is_create_group (GetLight (VInt 1)) = false ->
     e = AttributeError "_username_url").
Proof.
  split; [reflexivity|].
  apply (resource_op_without_username no_repr (GetLight (VInt 1)) fresh).
  reflexivity.
Defined.

(** Counterexample to C4 as stated: [get_light(1)] on a new object, which has
    no authenticated URL, fails with an [AttributeError], not with a
    [NotAuthenticatedError]. *)
Lemma resource_op_without_username_counterexample :
  _username_url (self fresh) = None /\
  fst (run_op no_repr (GetLight (VInt 1)) fresh) =
    inl (AttributeError "_username_url") /\
  ~ (exists e,
       fst (run_op no_repr (GetLight (VInt 1)) fresh) = inl e /\
       exn_class e = "NotAuthenticatedError").
Proof.
  split; [reflexivity|]. split; [reflexivity|].
  intros [e [E C]]. cbv in E. inversion E; subst e. discriminate C.
Defined.

(** Registration with the link button never pressed. *)
Lemma register_username_gives_up_witness :
  fst (register_username no_repr fixed_randint (discovered unpressed_wifi)) =
    inr VNone /\
  count_requests (trace (snd (register_username no_repr fixed_randint
                                (discovered unpressed_wifi)))) = 31 /\
  count_sleeps (trace (snd (register_username no_repr fixed_randint
                              (discovered unpressed_wifi)))) = 30.
Proof.
  destruct (register_username_gives_up no_repr fixed_randint
              (discovered unpressed_wifi) unpressed_wifi (VStr "10.0.0.5")
              eq_refl eq_refl (fun _ _ => eq_refl))
    as [R [_ [C [S _]]]].
  split; [exact R|]. split; [exact C | exact S].
Defined.

(** Counterexample to C1 as stated: on a bridge whose every answer is the
    link-button error, registration makes 31 pairing requests and 30 sleeps,
    not 30 and 29. *)
Lemma register_username_gives_up_counterexample :
  (forall h r, pairing_refused (respond unpressed_wifi h r) = true) /\
  count_requests (trace (snd (register_username no_repr fixed_randint
                                (discovered unpressed_wifi)))) = 31 /\
  count_sleeps (trace (snd (register_username no_repr fixed_randint
                              (discovered unpressed_wifi)))) = 30 /\
  ~ (fst (register_username no_repr fixed_randint (discovered unpressed_wifi)) =
       inr VNone /\
     count_requests (trace (snd (register_username no_repr fixed_randint
                                   (discovered unpressed_wifi)))) = 30 /\
     count_sleeps (trace (snd (register_username no_repr fixed_randint
                                 (discovered unpressed_wifi)))) = 29).
Proof.
  split; [intros h r; reflexivity|].
  split; [vm_compute; reflexivity|].
  split; [vm_compute; reflexivity|].
  intros [_ [C _]]. vm_compute in C. discriminate C.
Defined.

(** Registration with the link button pressed in time for the third pass. *)
Lemma register_username_granted_witness :
  fst (register_username no_repr fixed_randint (discovered third_pass_wifi)) =
    inr (VStr "abc123") /\
  _username_url (self (snd (register_username no_repr fixed_randint
                              (discovered third_pass_wifi)))) =
    Some "http://10.0.0.5/api/abc123" /\
  count_requests (trace (snd (register_username no_repr fixed_randint
                                (discovered third_pass_wifi)))) = 4 /\
  after_last_request (trace (snd (register_username no_repr fixed_randint
                                    (discovered third_pass_wifi)))) =
    [Sleep 1; Close].
Proof.
  assert (HN : 1 <= 3 <= 30) by lia.
  assert (Ha : forall (h : list event) (r : request),
             count_requests h = count_requests (trace (discovered third_pass_wifi)) ->
             answered (respond third_pass_wifi h r) = true).
  { intros h r E. cbn in *. rewrite E. reflexivity. }
  assert (Hg : forall (h : list event) (r : request),
             count_requests h =
               count_requests (trace (discovered third_pass_wifi)) + 3 ->
             granted_username (respond third_pass_wifi h r) = Some (VStr "abc123")).
  { intros h r E. cbn in *. rewrite E. reflexivity. }
  destruct (register_username_granted no_repr fixed_randint
              (discovered third_pass_wifi) third_pass_wifi
              (VStr "10.0.0.5") (VStr "abc123") 3 eq_refl eq_refl HN Ha
              (fun h r => third_pass_refused_before h r) Hg)
    as [R [_ [U [T L]]]].
  split; [exact R|]. split; [exact U|]. split; [|exact L].
  rewrite T. reflexivity.
Defined.

(** Counterexample to C2 as stated: on a bridge whose every answer grants the
    username [abc123], registration is granted in the first pass of the loop
    and still sleeps once after that request; the trace is the request before
    the loop, the granted request, the sleep and the close. *)
Lemma register_username_granted_counterexample :
  (forall h r,
     granted_username (respond pressed_wifi h r) = Some (VStr "abc123")) /\
  fst (register_username no_repr fixed_randint (discovered pressed_wifi)) =
    inr (VStr "abc123") /\
  after_last_request
    (trace (snd (register_username no_repr fixed_randint
                   (discovered pressed_wifi)))) = [Sleep 1; Close] /\
  ~ (count_sleeps
       (after_last_request
          (trace (snd (register_username no_repr fixed_randint
                         (discovered pressed_wifi))))) = 0).
Proof.
  split; [intros h r; reflexivity|].
  split; [vm_compute; reflexivity|].
  split; [vm_compute; reflexivity|].
  intros C. vm_compute in C. discriminate C.
Defined.

(** [Bridge(wifi, "10.0.0.5", "abc123")] is a reachable state. *)
Lemma authenticated_url_has_username_witness :
  reachable no_repr fixed_randint
    (snd (__init__ no_repr fixed_randint home_wifi (VStr "10.0.0.5")
            (VStr "abc123") fresh)) /\
  exists base name,
    _bridge_url (self (snd (__init__ no_repr fixed_randint home_wifi
                              (VStr "10.0.0.5") (VStr "abc123") fresh))) =
      Some base /\
    "http://10.0.0.5/api/abc123" = base ++ "/" ++ name.
Proof.
  assert (R : reachable no_repr fixed_randint
                (snd (__init__ no_repr fixed_randint home_wifi (VStr "10.0.0.5")
                        (VStr "abc123") fresh)))
    by apply reach_init.
  split; [exact R|].
  apply (authenticated_url_has_username no_repr fixed_randint _ R).
  reflexivity.
Defined.

(** Counterexample to C8 as stated: [Bridge(wifi, "10.0.0.5", "")] returns,
    and the authenticated URL of the object is [http://10.0.0.5/api/]: the
    base URL, a slash and the empty username. *)
Lemma authenticated_url_has_username_counterexample :
  reachable no_repr fixed_randint
    (snd (__init__ no_repr fixed_randint home_wifi (VStr "10.0.0.5")
            (VStr EmptyString) fresh)) /\
  fst (__init__ no_repr fixed_randint home_wifi (VStr "10.0.0.5")
         (VStr EmptyString) fresh) = inr tt /\
  _username_url (self (snd (__init__ no_repr fixed_randint home_wifi
                              (VStr "10.0.0.5") (VStr EmptyString) fresh))) =
    Some "http://10.0.0.5/api/" /\
  ~ (exists base name,
       _bridge_url (self (snd (__init__ no_repr fixed_randint home_wifi
                                 (VStr "10.0.0.5") (VStr EmptyString) fresh))) =
         Some base /\
       "http://10.0.0.5/api/" = base ++ "/" ++ name /\
       name <> EmptyString).
Proof.
  split; [apply reach_init|].
  split; [reflexivity|]. split; [reflexivity|].
  intros [base [name [B [U N]]]].
  cbv in B. inversion B; subst base.
  cbn in U. inversion U as [E]. apply N. symmetry. exact E.
Defined.


(** ** The further theorems at concrete inputs *)

(** [set_light(5, on=True, bri=200)] on a paired client. *)
Lemma resource_op_returns_json_witness :
  fst (run_op no_repr (SetLight (VInt 5) [("on", VBool true); ("bri", VInt 200)])
         (paired lamp_wifi)) = inr lamp_state /\
  count_requests
    (trace (snd (run_op no_repr
                   (SetLight (VInt 5) [("on", VBool true); ("bri", VInt 200)])
                   (paired lamp_wifi)))) = 1.
Proof.
  destruct (resource_op_returns_json no_repr
              (SetLight (VInt 5) [("on", VBool true); ("bri", VInt 200)])
              (paired lamp_wifi) "http://10.0.0.5/api/abc123" lamp_wifi
              (Req PUT "http://10.0.0.5/api/abc123/lights/5/state"
                   (Some (VDict [("on", VBool true); ("bri", VInt 200)])))
              (json_response lamp_state) lamp_state
              eq_refl eq_refl eq_refl (fun _ => eq_refl) eq_refl eq_refl)
    as [R [C _]].
  split; [exact R | exact C].
Defined.

(** [get_lights()] on a paired client whose transport is down. *)
Lemma resource_op_propagates_witness :
  fst (run_op no_repr GetLights (paired down_wifi)) =
    inl (Exn "OSError" "no network") /\
  count_closes (trace (snd (run_op no_repr GetLights (paired down_wifi)))) = 0.
Proof.
  destruct (resource_op_propagates no_repr GetLights (paired down_wifi)
              "http://10.0.0.5/api/abc123" down_wifi
              (Req GET "http://10.0.0.5/api/abc123/lights" (Some VNone))
              eq_refl eq_refl eq_refl) as [H _].
  exact (H (Exn "OSError" "no network") (fun _ => eq_refl)).
Defined.

Lemma first_only_answered (h : list event) (r : request) :
  count_requests h = 0 -> answered (respond first_only_wifi h r) = true.
Proof.
  intros E. unfold first_only_wifi, respond. rewrite E. reflexivity.
Defined.

Lemma first_only_refused_after (h : list event) (r : request) :
  0 < count_requests h ->
  pairing_refused (respond first_only_wifi h r) = true.
Proof.
  intros H. unfold first_only_wifi, respond.
  destruct (Nat.eqb_spec (count_requests h) 0); [lia | reflexivity].
Defined.

(** Registration on a bridge that grants the username in its first answer
    only. *)
Lemma register_username_discards_first_answer_witness :
  granted_username (respond first_only_wifi [] (Req POST EmptyString None)) =
    Some (VStr "abc123") /\
  fst (register_username no_repr fixed_randint (discovered first_only_wifi)) =
    inr VNone /\
  _username_url (self (snd (register_username no_repr fixed_randint
                              (discovered first_only_wifi)))) = None.
Proof.
  split; [reflexivity|].
  destruct (register_username_discards_first_answer no_repr fixed_randint
              (discovered first_only_wifi) first_only_wifi (VStr "10.0.0.5")
              eq_refl eq_refl first_only_answered first_only_refused_after)
    as [R [U _]].
  split; [exact R | exact U].
Defined.

Lemma dropping_refused_before (h : list event) (r : request) :
  0 < count_requests h < 0 + 2 ->
  pairing_refused (respond dropping_wifi h r) = true.
Proof.
  intros H. unfold dropping_wifi, respond.
  destruct (Nat.ltb_spec (count_requests h) 2); [reflexivity | lia].
Defined.

(** Registration over a transport that fails from its third request on. *)
Lemma register_username_transport_error_witness :
  fst (register_username no_repr fixed_randint (discovered dropping_wifi)) =
    inl (Exn "OSError" "no network") /\
  count_requests (trace (snd (register_username no_repr fixed_randint
                                (discovered dropping_wifi)))) = 3 /\
  count_closes (trace (snd (register_username no_repr fixed_randint
                              (discovered dropping_wifi)))) = 0.
Proof.
  assert (Hk : 1 < 30) by lia.
  assert (Ha : forall (h : list event) (r : request),
             count_requests h = count_requests (trace (discovered dropping_wifi)) ->
             answered (respond dropping_wifi h r) = true).
  { intros h r E. unfold dropping_wifi, respond. rewrite E. reflexivity. }
  assert (He : forall (h : list event) (r : request),
             count_requests h =
               count_requests (trace (discovered dropping_wifi)) + 2 ->
             respond dropping_wifi h r = inl (Exn "OSError" "no network")).
  { intros h r E. unfold dropping_wifi, respond. rewrite E. reflexivity. }
  destruct (register_username_transport_error no_repr fixed_randint
              (discovered dropping_wifi) dropping_wifi (VStr "10.0.0.5")
              (Exn "OSError" "no network") 1 eq_refl eq_refl Hk Ha
              dropping_refused_before He)
    as [R [T [C _]]].
  split; [exact R|]. split; [rewrite T; reflexivity | exact C].
Defined.

(** [Bridge(wifi)] with the link button never pressed. *)
Lemma init_provisioning_unpressed_witness :
  fst (__init__ no_repr fixed_randint home_wifi VNone VNone fresh) =
    inl (AssertionError (secrets_message no_repr (VStr "10.0.0.5") VNone)) /\
  count_requests (trace (snd (__init__ no_repr fixed_randint home_wifi VNone
                                VNone fresh))) = 32.
Proof.
  destruct (init_provisioning_unpressed no_repr fixed_randint home_wifi
              VNone VNone [] (json_response discovery_answer)
              [("id", VStr "001788fffe100491");
               ("internalipaddress", VStr "10.0.0.5")]
              [] (VStr "10.0.0.5")
              eq_refl eq_refl eq_refl eq_refl eq_refl eq_refl)
    as [R [C _]].
  - intros h r E. unfold home_wifi, respond. rewrite E. reflexivity.
  - split; [exact R | exact C].
Defined.

Lemma provisioning_refused_before (h : list event) (r : request) :
  req_method r = POST ->
  0 + 1 < count_requests h < 0 + 2 + 2 ->
  pairing_refused (respond provisioning_wifi h r) = true.
Proof.
  intros E H. unfold provisioning_wifi, respond. rewrite E.
  destruct (Nat.ltb_spec (count_requests h) 4); [reflexivity | lia].
Defined.

(** [Bridge(wifi, "192.168.0.9")] with the link button pressed in time for
    the third pass: the address passed in is not the one in the message. *)
Lemma init_provisioning_granted_witness :
  fst (__init__ no_repr fixed_randint provisioning_wifi (VStr "192.168.0.9")
         VNone fresh) =
    inl (AssertionError
           (secrets_message no_repr (VStr "10.0.0.5") (VStr "abc123"))) /\
  _username_url (self (snd (__init__ no_repr fixed_randint provisioning_wifi
                              (VStr "192.168.0.9") VNone fresh))) =
    Some "http://10.0.0.5/api/abc123".
Proof.
  assert (Hk : 2 < 30) by lia.
  destruct (init_provisioning_granted no_repr fixed_randint provisioning_wifi
              (VStr "192.168.0.9") VNone [] (json_response discovery_answer)
              [("id", VStr "001788fffe100491");
               ("internalipaddress", VStr "10.0.0.5")]
              [] (VStr "10.0.0.5") (VStr "abc123") 2
              eq_refl eq_refl eq_refl eq_refl eq_refl eq_refl Hk)
    as [R [U _]].
  - intros h r E C. unfold provisioning_wifi, respond. rewrite E.
    cbn in C. rewrite C. reflexivity.
  - exact provisioning_refused_before.
  - intros h r E C. unfold provisioning_wifi, respond. rewrite E.
    cbn in C. rewrite C. reflexivity.
  - split; [exact R | exact U].
Defined.

(** [Bridge(wifi, "10.0.0.5", "abc123")], then [get_lights()], is the
    state of a client. *)
Lemma paired_then_get_lights_constructed :
  constructed no_repr fixed_randint
    (exec no_repr fixed_randint (CallOp GetLights) (paired lamp_wifi)).
Proof.
  apply constructed_call.
  exact (constructed_init no_repr fixed_randint lamp_wifi
           (VStr "10.0.0.5") (VStr "abc123") [] eq_refl).
Defined.

(** [register_username()] on that client. *)
Lemma register_username_on_client_witness :
  fst (register_username no_repr fixed_randint
         (exec no_repr fixed_randint (CallOp GetLights) (paired lamp_wifi))) =
    inl (AttributeError "_bridge_ip").
Proof.
  rewrite (register_username_on_client no_repr fixed_randint _
             paired_then_get_lights_constructed).
  reflexivity.
Defined.

(** [discover_bridge()] on that client. *)
Lemma client_is_stable_witness :
  _username_url
    (self (exec no_repr fixed_randint CallDiscover
             (exec no_repr fixed_randint (CallOp GetLights) (paired lamp_wifi)))) =
    Some "http://10.0.0.5/api/abc123".
Proof.
  destruct (client_is_stable no_repr fixed_randint _
              paired_then_get_lights_constructed)
    as [w [base [name [_ [_ [U K]]]]]].
  destruct (K CallDiscover) as [_ [_ K3]].
  rewrite K3. rewrite <- U. reflexivity.
Defined.
